(** * hivemoot-bot: the PR governance evaluation engine

    A shallow embedding of [src/api/lib/automerge.ts] (file classifier and
    automerge label evaluator), [src/api/lib/transient-error.ts] (transient
    error classifier) and of the status webhook handler exercised by
    [src/api/github/webhooks/status-handler.test.ts].

    Conventions.
    - JavaScript numbers that hold counts, line totals and HTTP statuses are
      integers, modelled by [Z].
    - A [Set<string>] is a [gset string]; arrays are lists.
    - An [async] function that talks to the remote is a computation in the
      monad [PROps.M]: it threads the remote store and the trace of remote
      calls, and it either returns or throws. *)

From Stdlib Require Import ZArith Lia Ascii.
From stdpp Require Import gmap strings list pretty.

Local Open Scope string_scope.
Local Open Scope list_scope.
Local Open Scope Z_scope.

Set Warnings "-clear-no-such-hyp".

(** ** Pure classification functions ([automerge.ts], lines 67-149) *)

Module Automerge.

(** [interface PRFile]. [previous_filename] is an optional property. *)
Record PRFile := mkPRFile {
  filename : string;
  additions : Z;
  deletions : Z;
  changes : Z;
  status : string;
  previous_filename : option string;
}.

(** [AutomergeConfig] (declared in [repo-config.ts], used field by field). *)
Record AutomergeConfig := mkAutomergeConfig {
  dryRun : bool;
  allowedPaths : list string;
  denyPaths : list string;
  maxFiles : Z;
  maxChangedLines : Z;
  minApprovals : Z;
  requireChecks : bool;
}.

(** [interface ClassifyResult]. *)
Record ClassifyResult := mkClassifyResult {
  eligible : bool;
  reason : string;
}.

(** Outcome of a [for ... of] loop whose body may [return]. *)
Inductive LoopExit (A : Type) : Type :=
| Returned (a : A)
| FellThrough.
Arguments Returned {A} a.
Arguments FellThrough {A}.

(** Truthiness of an optional string property: [undefined] and the empty
    string are falsy. *)
Definition truthy (o : option string) : option string :=
  match o with
  | Some s => if decide (s = "") then None else Some s
  | None => None
  end.

(** The file record as the path check reads it: a falsy [previous_filename]
    ([undefined] or the empty string) counts as absent. *)
Definition withTruthyPrevious (file : PRFile) : PRFile :=
  {| filename := filename file;
     additions := additions file;
     deletions := deletions file;
     changes := changes file;
     status := status file;
     previous_filename := truthy (previous_filename file) |}.

Section Classifier.

(** [minimatch(filename, pattern, { dot: true })] of the npm package
    [minimatch]; the glob matcher is a parameter of the development. *)
Variable minimatch : string → string → bool.

(** [for (const pattern of patterns) if (minimatch(..)) return v;] *)
Fixpoint patternLoop (filename : string) (patterns : list string) (v : bool)
  : LoopExit bool :=
  match patterns with
  | [] => FellThrough
  | pattern :: rest =>
      if minimatch filename pattern then Returned v
      else patternLoop filename rest v
  end.

Definition isFileAllowed (filename : string)
    (allowedPaths denyPaths : list string) : bool :=
  match patternLoop filename denyPaths false with
  | Returned b => b
  | FellThrough =>
      match patternLoop filename allowedPaths true with
      | Returned b => b
      | FellThrough => false
      end
  end.

(** [let total = 0; for (const file of files) total += additions + deletions] *)
Definition totalChangedLines (files : list PRFile) : Z :=
  fold_left (λ total file, total + (additions file + deletions file)) files 0.

(** The path-rule loop of [classifyFiles] (lines 132-146). *)
Fixpoint pathLoop (files : list PRFile) (config : AutomergeConfig)
  : LoopExit ClassifyResult :=
  match files with
  | [] => FellThrough
  | file :: rest =>
      if negb (isFileAllowed (filename file)
                 (allowedPaths config) (denyPaths config))
      then Returned {| eligible := false;
                       reason := "file not allowed: " +:+ filename file |}
      else
        match truthy (previous_filename file) with
        | Some prev =>
            if negb (isFileAllowed prev
                       (allowedPaths config) (denyPaths config))
            then Returned
                   {| eligible := false;
                      reason := "file not allowed: " +:+ prev
                                +:+ " (renamed to " +:+ filename file
                                +:+ ")" |}
            else pathLoop rest config
        | None => pathLoop rest config
        end
  end.

Definition classifyFiles (files : list PRFile) (config : AutomergeConfig)
  : ClassifyResult :=
  if decide (Z.of_nat (length files) = 0) then
    {| eligible := false; reason := "no files changed" |}
  else if decide (Z.of_nat (length files) > maxFiles config) then
    {| eligible := false;
       reason := "too many files: " +:+ pretty (Z.of_nat (length files))
                 +:+ " > " +:+ pretty (maxFiles config) |}
  else if decide (totalChangedLines files > maxChangedLines config) then
    {| eligible := false;
       reason := "too many changed lines: "
                 +:+ pretty (totalChangedLines files)
                 +:+ " > " +:+ pretty (maxChangedLines config) |}
  else
    match pathLoop files config with
    | Returned r => r
    | FellThrough =>
        {| eligible := true; reason := "all file checks passed" |}
    end.

(** The sum of [additions + deletions] over a file list. *)
Definition sumChangedLines (files : list PRFile) : Z :=
  foldr Z.add 0 ((λ file, additions file + deletions file) <$> files).

(** A file passes the path rules: its name is allowed and, when it was
    renamed (it carries a non-empty [previous_filename]), so is the name it
    had before. *)
Definition pathsAllowed (config : AutomergeConfig) (file : PRFile) : Prop :=
  isFileAllowed (filename file) (allowedPaths config) (denyPaths config) = true
  ∧ ∀ prev, truthy (previous_filename file) = Some prev →
      isFileAllowed prev (allowedPaths config) (denyPaths config) = true.

(** The reason reported for a file that fails the path rules: the current
    name is examined before the previous one. *)
Definition pathReason (config : AutomergeConfig) (file : PRFile) : string :=
  if isFileAllowed (filename file) (allowedPaths config) (denyPaths config)
  then "file not allowed: " +:+ default "" (truthy (previous_filename file))
       +:+ " (renamed to " +:+ filename file +:+ ")"
  else "file not allowed: " +:+ filename file.

End Classifier.

End Automerge.

(** ** The remote system behind [PROperations] ([pr-operations.ts]) *)

Module PROps.

(** [PRRef] of [types.ts]. *)
Record PRRef := mkPRRef {
  owner : string;
  repo : string;
  prNumber : Z;
}.

#[global] Instance PRRef_eq_dec : EqDecision PRRef.
Proof. solve_decision. Defined.

(** A thrown value (the [Error]'s message). *)
Definition Error : Type := string.

(** Settlement of a promise. *)
Inductive Outcome (A : Type) : Type :=
| Resolved (a : A)
| Rejected (e : Error).
Arguments Resolved {A} a.
Arguments Rejected {A} e.

Record CheckRun := mkCheckRun {
  runId : Z;
  runStatus : string;
  conclusion : option string;
}.

Record CheckRuns := mkCheckRuns {
  totalCount : Z;
  checkRuns : list CheckRun;
}.

Record CombinedStatus := mkCombinedStatus {
  state : string;
  statusCount : Z;
}.

Record PullRequest := mkPullRequest {
  headSha : string;
}.

(** The remote calls of the [PROperations] interface that the evaluator
    performs, with their arguments. *)
Inductive Call : Type :=
| GetLabels (ref : PRRef)
| ListFiles (ref : PRRef) (earlyExitThreshold : Z)
| GetApproverLogins (ref : PRRef)
| Get (ref : PRRef)
| GetCheckRunsForRef (owner repo sha : string)
| GetCombinedStatus (owner repo sha : string)
| AddLabels (ref : PRRef) (labels : list string)
| RemoveLabel (ref : PRRef) (label : string).

(** One entry of the call trace: the call and, when it threw, the error. *)
Record Event := mkEvent {
  call : Call;
  threw : option Error;
}.

(** The remote: the labels of every pull request (the only part a call
    changes) and the upstream signals, each of which may answer or fail. *)
Record Store := mkStore {
  labelsOf : PRRef → list string;
  labelsDown : PRRef → option Error;
  filesOf : PRRef → Z → Outcome (list Automerge.PRFile);
  approversOf : PRRef → Outcome (gset string);
  pullOf : PRRef → Outcome PullRequest;
  checkRunsOf : string → string → string → Outcome CheckRuns;
  combinedStatusOf : string → string → string → Outcome CombinedStatus;
  addLabelsDown : PRRef → option Error;
  removeLabelDown : PRRef → option Error;
}.

(** What an evaluation runs against: the remote, the trace of the calls made
    so far and the lines written to the logger. *)
Record World := mkWorld {
  store : Store;
  trace : list Event;
  logged : list string;
}.

(** An [async] computation: it ends resolved or rejected, in a new world. *)
Definition M (A : Type) : Type := World → Outcome A * World.

Definition ret {A : Type} (a : A) : M A := λ w, (Resolved a, w).

(** [await m] followed by [k]: a rejection of [m] is rethrown. *)
Definition bind {A B : Type} (m : M A) (k : A → M B) : M B :=
  λ w, match m w with
       | (Resolved a, w') => k a w'
       | (Rejected e, w') => (Rejected e, w')
       end.

Notation "'let*' x ':=' m 'in' k" := (bind m (λ x, k))
  (at level 10, x name, m at level 100, k at level 200).

(** A remote call: it is appended to the trace; when the remote answers,
    [effect] is applied to the store. *)
Definition perform {A : Type} (c : Call) (answer : Store → Outcome A)
    (effect : Store → Store) : M A :=
  λ w, match answer (store w) with
       | Resolved a =>
           (Resolved a,
            {| store := effect (store w);
               trace := trace w ++ [{| call := c; threw := None |}];
               logged := logged w |})
       | Rejected e =>
           (Rejected e,
            {| store := store w;
               trace := trace w ++ [{| call := c; threw := Some e |}];
               logged := logged w |})
       end.

Definition orDown {A : Type} (down : option Error) (a : A) : Outcome A :=
  match down with
  | Some e => Rejected e
  | None => Resolved a
  end.

Definition setLabels (ref : PRRef) (f : list string → list string)
    (s : Store) : Store :=
  {| labelsOf := λ r, if decide (r = ref) then f (labelsOf s r)
                      else labelsOf s r;
     labelsDown := labelsDown s;
     filesOf := filesOf s;
     approversOf := approversOf s;
     pullOf := pullOf s;
     checkRunsOf := checkRunsOf s;
     combinedStatusOf := combinedStatusOf s;
     addLabelsDown := addLabelsDown s;
     removeLabelDown := removeLabelDown s |}.

(** Labels on a pull request form a set: adding keeps one copy. *)
Definition addMissing (new : list string) (old : list string) : list string :=
  old ++ filter (λ l, l ∉ old) (remove_dups new).

Definition dropLabel (label : string) (old : list string) : list string :=
  filter (λ l, l ≠ label) old.

Definition getLabels (ref : PRRef) : M (list string) :=
  perform (GetLabels ref)
          (λ s, orDown (labelsDown s ref) (labelsOf s ref)) id.

Definition listFiles (ref : PRRef) (earlyExitThreshold : Z)
  : M (list Automerge.PRFile) :=
  perform (ListFiles ref earlyExitThreshold)
          (λ s, filesOf s ref earlyExitThreshold) id.

Definition getApproverLogins (ref : PRRef) : M (gset string) :=
  perform (GetApproverLogins ref) (λ s, approversOf s ref) id.

Definition get (ref : PRRef) : M PullRequest :=
  perform (Get ref) (λ s, pullOf s ref) id.

Definition getCheckRunsForRef (owner repo sha : string) : M CheckRuns :=
  perform (GetCheckRunsForRef owner repo sha)
          (λ s, checkRunsOf s owner repo sha) id.

Definition getCombinedStatus (owner repo sha : string) : M CombinedStatus :=
  perform (GetCombinedStatus owner repo sha)
          (λ s, combinedStatusOf s owner repo sha) id.

Definition addLabels (ref : PRRef) (labels : list string) : M unit :=
  perform (AddLabels ref labels)
          (λ s, orDown (addLabelsDown s ref) tt)
          (setLabels ref (addMissing labels)).

Definition removeLabel (ref : PRRef) (label : string) : M unit :=
  perform (RemoveLabel ref label)
          (λ s, orDown (removeLabelDown s ref) tt)
          (setLabels ref (dropLabel label)).

(** [log?.info(msg)]: a line is written when a logger was passed. *)
Definition logInfo (log : bool) (msg : string) : M unit :=
  λ w, (Resolved tt,
        if log then {| store := store w; trace := trace w;
                       logged := logged w ++ [msg] |}
        else w).

(** A call that changes the remote. *)
Definition isMutation (c : Call) : bool :=
  match c with
  | AddLabels _ _ | RemoveLabel _ _ => true
  | _ => false
  end.

(** A call of the CI-signal aggregator. *)
Definition isCIQuery (c : Call) : bool :=
  match c with
  | GetCheckRunsForRef _ _ _ | GetCombinedStatus _ _ _ => true
  | _ => false
  end.

Definition isApprovalQuery (c : Call) : bool :=
  match c with
  | GetApproverLogins _ => true
  | _ => false
  end.

Definition isHeadQuery (c : Call) : bool :=
  match c with
  | Get _ => true
  | _ => false
  end.

Definition isLabelQuery (c : Call) : bool :=
  match c with
  | GetLabels _ => true
  | _ => false
  end.

Definition isAddLabels (c : Call) : bool :=
  match c with
  | AddLabels _ _ => true
  | _ => false
  end.

(** The calls of a trace that change the remote, in call order. *)
Definition mutations (tr : list Event) : list Event :=
  omap (λ e, if isMutation (call e) then Some e else None) tr.

(** The errors thrown by the mutations of a trace, in call order. *)
Definition mutationErrors (tr : list Event) : list Error :=
  omap (λ e, if isMutation (call e) then threw e else None) tr.

(** The errors thrown by the fetches of a trace, in call order. *)
Definition fetchErrors (tr : list Event) : list Error :=
  omap (λ e, if isMutation (call e) then None else threw e) tr.

(** No call of the trace changes the remote. *)
Definition readOnly (tr : list Event) : bool :=
  forallb (λ e, negb (isMutation (call e))) tr.

(** A call that changes the remote has no call after it. *)
Fixpoint mutationOnlyLast (tr : list Event) : bool :=
  match tr with
  | [] => true
  | e :: rest =>
      match rest with
      | [] => true
      | _ => negb (isMutation (call e)) && mutationOnlyLast rest
      end
  end.

(** Modelled from the spec: [isCIPassing] of [merge-readiness.ts], which is
    not among the sources. Section 4.4: all present check runs are completed
    with a successful conclusion, and the combined status, if present, is
    not a failing or error state; no checks at all is passing. *)
Definition checkRunPassing (c : CheckRun) : bool :=
  bool_decide (runStatus c = "completed")
  && bool_decide (conclusion c = Some "success").

Definition combinedStatusFailing (s : CombinedStatus) : bool :=
  bool_decide (0 < statusCount s)
  && (bool_decide (state s = "failure") || bool_decide (state s = "error")).

Definition isCIPassing (ref : PRRef) (sha : string) : M bool :=
  let* runs := getCheckRunsForRef (owner ref) (repo ref) sha in
  let* combined := getCombinedStatus (owner ref) (repo ref) sha in
  ret (forallb checkRunPassing (checkRuns runs)
       && negb (combinedStatusFailing combined)).

End PROps.

(** ** The automerge label evaluator ([automerge.ts], lines 151-231) *)

Module Evaluator.
Import Automerge PROps.

(** [type AutomergeResult]. *)
Inductive AutomergeResult : Type :=
| Skipped (reason : string)
| Labeled
| Unlabeled (reason : string)
| Noop (labeled : bool).

(** [interface AutomergeParams]; [prs] is the remote the computation runs
    against, [log] tells whether a logger was passed. *)
Record AutomergeParams := mkAutomergeParams {
  ref : PRRef;
  config : option AutomergeConfig;
  trustedReviewers : list string;
  paramHeadSha : option string;
  currentLabels : option (list string);
  log : bool;
}.

(** [trustedReviewers.filter(r => approvers.has(r)).length] (line 201). *)
Definition trustedApprovalCount (trustedReviewers : list string)
    (approvers : gset string) : nat :=
  length (filter (λ r, r ∈ approvers) trustedReviewers).

Section Evaluate.

Variable minimatch : string → string → bool.

(** [isLabelMatch] and [LABELS.AUTOMERGE] of [config.ts]. *)
Variable isLabelMatch : string → string → bool.
Variable AUTOMERGE : string.

(** [labels.some(l => isLabelMatch(l, LABELS.AUTOMERGE))] (line 179). *)
Definition hasAutomergeLabel (labels : list string) : bool :=
  existsb (λ l, isLabelMatch l AUTOMERGE) labels.

(** The helper [removeIfLabeled] (lines 182-189). *)
Definition removeIfLabeled (params : AutomergeParams) (hasAutomerge : bool)
    (reason : string) : M AutomergeResult :=
  if hasAutomerge then
    let* _ := removeLabel (ref params) AUTOMERGE in
    let* _ := logInfo (log params)
                ("[PR #" +:+ pretty (prNumber (ref params))
                 +:+ "] Removed automerge: " +:+ reason) in
    ret (Unlabeled reason)
  else ret (Noop false).

(** Lines 223-230: all conditions met. *)
Definition addIfMissing (params : AutomergeParams) (hasAutomerge : bool)
  : M AutomergeResult :=
  if negb hasAutomerge then
    let* _ := addLabels (ref params) [AUTOMERGE] in
    let* _ := logInfo (log params)
                ("[PR #" +:+ pretty (prNumber (ref params))
                 +:+ "] Added automerge label") in
    ret Labeled
  else ret (Noop true).

Definition evaluateAutomerge (params : AutomergeParams) : M AutomergeResult :=
  match config params with
  | None => ret (Skipped "feature disabled")
  | Some config =>
      let* labels := match currentLabels params with
                     | Some labels => ret labels
                     | None => getLabels (ref params)
                     end in
      let hasAutomerge := hasAutomergeLabel labels in
      let* files := listFiles (ref params) (maxFiles config) in
      let classification := classifyFiles minimatch files config in
      if negb (eligible classification) then
        removeIfLabeled params hasAutomerge (reason classification)
      else
        let* approvers := getApproverLogins (ref params) in
        let count :=
          Z.of_nat (trustedApprovalCount (trustedReviewers params) approvers) in
        if decide (count < minApprovals config) then
          removeIfLabeled params hasAutomerge
            ("insufficient approvals: " +:+ pretty count
             +:+ "/" +:+ pretty (minApprovals config))
        else if requireChecks config then
          let* headSha := match truthy (paramHeadSha params) with
                          | Some sha => ret sha
                          | None => let* pr := get (ref params) in
                                    ret (headSha pr)
                          end in
          let* ciPassing := isCIPassing (ref params) headSha in
          if negb ciPassing then
            removeIfLabeled params hasAutomerge "CI not passing"
          else addIfMissing params hasAutomerge
        else addIfMissing params hasAutomerge
  end.

(** One evaluation against a remote, from an empty trace and log. *)
Definition evaluateOn (s : Store) (params : AutomergeParams)
  : Outcome AutomergeResult * World :=
  evaluateAutomerge params {| store := s; trace := []; logged := [] |}.

End Evaluate.

(** The head commit an evaluation checks CI for: the SHA passed by the
    caller when it is truthy, else the one fetched from the pull request
    (lines 211-215). *)
Definition headShaOf (s : Store) (params : AutomergeParams) : Outcome string :=
  match truthy (paramHeadSha params) with
  | Some sha => Resolved sha
  | None =>
      match pullOf s (ref params) with
      | Resolved pr => Resolved (headSha pr)
      | Rejected e => Rejected e
      end
  end.

(** The remote calls an evaluation can make, in the order of the source:
    labels, files, approvals, head commit, CI, label mutation. *)
Definition canonicalCalls (AUTOMERGE : string) (ref : PRRef)
    (config : AutomergeConfig) (sha : string) : list Call :=
  [ GetLabels ref;
    ListFiles ref (maxFiles config);
    GetApproverLogins ref;
    Get ref;
    GetCheckRunsForRef (owner ref) (repo ref) sha;
    GetCombinedStatus (owner ref) (repo ref) sha;
    RemoveLabel ref AUTOMERGE;
    AddLabels ref [AUTOMERGE] ].

(** A world before any call. *)
Definition initially (s : Store) : World :=
  {| store := s; trace := []; logged := [] |}.


End Evaluator.

(** ** The transient-error classifier ([transient-error.ts]) *)

Module TransientError.

(** An expression either yields a value or throws. *)
Inductive Completion (A : Type) : Type :=
| Normal (a : A)
| Throw (message : string).
Arguments Normal {A} a.
Arguments Throw {A} message.

Definition andThen {A B : Type} (c : Completion A) (k : A → Completion B)
  : Completion B :=
  match c with
  | Normal a => k a
  | Throw m => Throw m
  end.

(** A value of type [unknown]. [JsObject] is an object whose properties are
    data properties. [JsExotic] is an object whose property reads run code
    (accessor properties, a [Proxy]): [has key] is what [key in o] does and
    [get key] what [o.key] does, and either may throw. *)
#[warnings="-register-all"]
Inductive JsValue : Type :=
| JsUndefined
| JsNull
| JsBoolean (b : bool)
| JsNumber (n : Z)
| JsString (s : string)
| JsObject (props : list (string * JsValue))
| JsExotic (has : string → Completion bool)
           (get : string → Completion JsValue).

(** [typeof v]. *)
Definition typeof (v : JsValue) : string :=
  match v with
  | JsUndefined => "undefined"
  | JsNull => "object"
  | JsBoolean _ => "boolean"
  | JsNumber _ => "number"
  | JsString _ => "string"
  | JsObject _ => "object"
  | JsExotic _ _ => "object"
  end.

Fixpoint lookupProp (key : string) (props : list (string * JsValue))
  : option JsValue :=
  match props with
  | [] => None
  | (k, v) :: rest => if decide (k = key) then Some v else lookupProp key rest
  end.

(** [key in v]: a [TypeError] unless [v] is an object; on an exotic object
    whatever its [has] does. *)
Definition hasProperty (key : string) (v : JsValue) : Completion bool :=
  match v with
  | JsObject props => Normal (bool_decide (is_Some (lookupProp key props)))
  | JsExotic has _ => has key
  | _ => Throw "TypeError: right-hand side of 'in' is not an object"
  end.

(** [v.key]: a [TypeError] on [null] and [undefined], [undefined] when the
    property is absent; on an exotic object whatever its [get] does. *)
Definition getProperty (key : string) (v : JsValue) : Completion JsValue :=
  match v with
  | JsObject props => Normal (default JsUndefined (lookupProp key props))
  | JsExotic _ get => get key
  | JsNull | JsUndefined =>
      Throw "TypeError: cannot read properties of null or undefined"
  | _ => Normal JsUndefined
  end.

(** [TRANSIENT_NETWORK_CODES]. *)
Definition TRANSIENT_NETWORK_CODES : gset string :=
  {[ "ECONNRESET"; "ETIMEDOUT"; "ECONNREFUSED";
     "ENOTFOUND"; "EAI_AGAIN"; "EPIPE" ]}.

(** Modelled from the spec: [getErrorStatus] of [github-client.ts], which is
    not among the sources. Section 4.1: the HTTP status an error carries,
    that is the numeric [status] property of an error object, else [null]. *)
Definition getErrorStatus (error : JsValue) : option Z :=
  match error with
  | JsObject props =>
      match lookupProp "status" props with
      | Some (JsNumber n) => Some n
      | _ => None
      end
  | _ => None
  end.

(** Modelled from the spec: [getErrorStatus] on any value. Reading the
    [status] of an exotic object runs its [get], which may throw; the
    status is the value read when it is a number. *)
Definition getErrorStatusC (error : JsValue) : Completion (option Z) :=
  match error with
  | JsExotic _ get =>
      andThen (get "status") (λ status,
        Normal (match status with
                | JsNumber n => Some n
                | _ => None
                end))
  | _ => Normal (getErrorStatus error)
  end.

(** [v === null]. *)
Definition isNull (v : JsValue) : bool :=
  match v with
  | JsNull => true
  | _ => false
  end.

(** The guard of line 264,
    [typeof error === "object" && error !== null && "code" in error],
    evaluated left to right with short circuit. *)
Definition isObjectWithCode (error : JsValue) : Completion bool :=
  if bool_decide (typeof error = "object") then
    if negb (isNull error) then hasProperty "code" error
    else Normal false
  else Normal false.

(** [typeof code === "string" && TRANSIENT_NETWORK_CODES.has(code)]. *)
Definition isTransientCode (code : JsValue) : bool :=
  match code with
  | JsString s => bool_decide (s ∈ TRANSIENT_NETWORK_CODES)
  | _ => false
  end.

(** [status !== null && (status === 429 || status >= 500)]. *)
Definition isTransientStatus (status : option Z) : bool :=
  match status with
  | Some n => bool_decide (n = 429) || bool_decide (500 ≤ n)%Z
  | None => false
  end.

(** [isTransientError], with the exceptions its operators can raise. *)
Definition isTransientErrorC (error : JsValue) : Completion bool :=
  andThen (isObjectWithCode error) (λ guard,
    andThen (if guard then
               andThen (getProperty "code" error) (λ code,
                 Normal (isTransientCode code))
             else Normal false) (λ matched,
      if matched then Normal true
      else andThen (getErrorStatusC error) (λ status,
             Normal (isTransientStatus status)))).

(** The boolean the caller sees; [None] when the call throws. *)
Definition isTransientError (error : JsValue) : option bool :=
  match isTransientErrorC error with
  | Normal b => Some b
  | Throw _ => None
  end.

(** Reading [code] and [status] of the value does not throw: always so for
    [null], [undefined], primitives and objects with data properties. *)
Definition readsSafely (error : JsValue) : Prop :=
  match error with
  | JsExotic has get =>
      (∃ b, has "code" = Normal b)
      ∧ (∃ v, get "code" = Normal v)
      ∧ (∃ v, get "status" = Normal v)
  | _ => True
  end.

(** [{ get code() { throw new Error("getter threw") } }]. *)
Definition throwingCodeGetter : JsValue :=
  JsExotic (λ key, Normal (bool_decide (key = "code")))
           (λ key, if decide (key = "code") then Throw "getter threw"
                   else Normal JsUndefined).

(** [{ get code() { return "ETIMEDOUT" } }]. *)
Definition timeoutCodeGetter : JsValue :=
  JsExotic (λ key, Normal (bool_decide (key = "code")))
           (λ key, if decide (key = "code") then Normal (JsString "ETIMEDOUT")
                   else Normal JsUndefined).

End TransientError.

(** ** The status-event fan-out controller (the [status] webhook handler) *)

Module StatusHandler.
Import PROps.

(** [payload.repository]. *)
Record Repository := mkRepository {
  ownerLogin : string;
  name : string;
  full_name : string;
}.

(** [context.payload] of a commit-status event. *)
Record StatusPayload := mkStatusPayload {
  sha : string;
  repository : Repository;
}.

(** An entry of the pull-request listing: [number] and [head.sha]. *)
Record ListedPR := mkListedPR {
  number : Z;
  headSha : string;
}.

(** The argument of [octokit.rest.pulls.list]. *)
Record ListQuery := mkListQuery {
  queryOwner : string;
  queryRepo : string;
  queryState : string;
  querySort : string;
  queryDirection : string;
  per_page : Z;
}.

Record MergeReadyConfig := mkMergeReadyConfig {
  requiredApprovals : Z;
}.

(** [governance.pr] of the repository configuration. *)
Record RepoConfig := mkRepoConfig {
  mergeReady : option MergeReadyConfig;
  trustedReviewers : list string;
}.

(** What the handler does that an observer can see, in order. *)
Inductive Event : Type :=
| LoadedConfig (owner repo : string)
| ListedPulls (query : ListQuery)
| Evaluated (ref : PRRef) (headSha : string) (threw : option Error)
| LoggedError (pr : Z) (repo : string) (message : string).

Definition failureLogLine : string :=
  "Failed to evaluate merge-readiness after status event".

Definition aggregateMessage (failed : nat) : string :=
  pretty (Z.of_nat failed)
  +:+ " PR(s) failed merge-readiness evaluation after status event".

Definition refOf (repository : Repository) (pr : ListedPR) : PRRef :=
  {| owner := ownerLogin repository;
     repo := name repository;
     prNumber := number pr |}.

Definition openPullsQuery (repository : Repository) : ListQuery :=
  {| queryOwner := ownerLogin repository;
     queryRepo := name repository;
     queryState := "open";
     querySort := "updated";
     queryDirection := "desc";
     per_page := 100 |}.

Section Handler.

(** The state the merge-readiness evaluator runs against (the remote, or a
    mock's call counter), and the evaluator of [merge-readiness.ts]. *)
Variable Remote : Type.
Variable evaluateMergeReadiness :
  PRRef → MergeReadyConfig → list string → string → Remote
  → Outcome unit * Remote.

(** [loadRepositoryConfig] and [octokit.rest.pulls.list] of the context. *)
Variable loadRepositoryConfig : string → string → Outcome RepoConfig.
Variable pullsList : ListQuery → Outcome (list ListedPR).

(** Modelled from the spec: steps 4 and 5 of section 4.6; the handler of
    [webhooks/index.ts] is not among the sources. Every matching pull request
    is evaluated in listing order; a failure is logged with the pull-request
    number and the repository's full name, and collected. *)
Fixpoint evaluateEach (payload : StatusPayload) (ready : MergeReadyConfig)
    (trusted : list string) (prs : list ListedPR)
    (remote : Remote) (seen : list Event) (failures : list (Z * Error))
  : Remote * list Event * list (Z * Error) :=
  match prs with
  | [] => (remote, seen, failures)
  | pr :: rest =>
      let ref := refOf (repository payload) pr in
      match evaluateMergeReadiness ref ready trusted (sha payload) remote with
      | (Resolved _, remote') =>
          evaluateEach payload ready trusted rest remote'
            (seen ++ [Evaluated ref (sha payload) None]) failures
      | (Rejected e, remote') =>
          evaluateEach payload ready trusted rest remote'
            (seen ++ [Evaluated ref (sha payload) (Some e);
                      LoggedError (number pr)
                        (full_name (repository payload)) failureLogLine])
            (failures ++ [(number pr, e)])
      end
  end.

(** Modelled from the spec: the status-event fan-out controller, steps 1 to
    6 of section 4.6, with the listing arguments the handler's test
    expects. *)
Definition statusHandler (payload : StatusPayload) (remote : Remote)
  : Outcome unit * Remote * list Event :=
  let repository := repository payload in
  let loaded := [LoadedConfig (ownerLogin repository) (name repository)] in
  match loadRepositoryConfig (ownerLogin repository) (name repository) with
  | Rejected e => (Rejected e, remote, loaded)
  | Resolved config =>
      match mergeReady config with
      | None => (Resolved tt, remote, loaded)
      | Some ready =>
          let query := openPullsQuery repository in
          let listed := (loaded ++ [ListedPulls query])%list in
          match pullsList query with
          | Rejected e => (Rejected e, remote, listed)
          | Resolved prs =>
              let matching :=
                filter (λ pr, headSha pr = sha payload) prs in
              let '(remote', seen, failures) :=
                evaluateEach payload ready (trustedReviewers config)
                  matching remote listed [] in
              if decide (0 < Z.of_nat (length failures)) then
                (Rejected (aggregateMessage (length failures)), remote', seen)
              else (Resolved tt, remote', seen)
          end
      end
  end.

(** The merge-readiness evaluator applied to the pull requests in turn,
    each call with the pull request's reference and the event's SHA and from
    the remote the previous call left: what each call returned. *)
Fixpoint evaluationOutcomes (payload : StatusPayload)
    (ready : MergeReadyConfig) (trusted : list string) (prs : list ListedPR)
    (remote : Remote) : list (ListedPR * Outcome unit) :=
  match prs with
  | [] => []
  | pr :: rest =>
      let result :=
        evaluateMergeReadiness (refOf (repository payload) pr) ready trusted
          (sha payload) remote in
      (pr, result.1)
      :: evaluationOutcomes payload ready trusted rest result.2
  end.

(** The remote after those calls. *)
Fixpoint remoteAfter (payload : StatusPayload)
    (ready : MergeReadyConfig) (trusted : list string) (prs : list ListedPR)
    (remote : Remote) : Remote :=
  match prs with
  | [] => remote
  | pr :: rest =>
      remoteAfter payload ready trusted rest
        (evaluateMergeReadiness (refOf (repository payload) pr) ready trusted
           (sha payload) remote).2
  end.

End Handler.

(** The pull requests whose evaluation rejected. *)
Definition rejectedPulls (outcomes : list (ListedPR * Outcome unit))
  : list ListedPR :=
  omap (λ outcome, match outcome.2 with
                   | Rejected _ => Some outcome.1
                   | Resolved _ => None
                   end) outcomes.

(** Projections of a trace. *)
Definition evaluationOf (e : Event) : option (PRRef * string) :=
  match e with
  | Evaluated ref headSha _ => Some (ref, headSha)
  | _ => None
  end.

Definition evaluatedOf (e : Event) : option (PRRef * string * option Error) :=
  match e with
  | Evaluated ref headSha threw => Some (ref, headSha, threw)
  | _ => None
  end.

Definition errorLogOf (e : Event) : option (Z * string * string) :=
  match e with
  | LoggedError pr repo message => Some (pr, repo, message)
  | _ => None
  end.

Definition listingOf (e : Event) : option ListQuery :=
  match e with
  | ListedPulls query => Some query
  | _ => None
  end.

(** The error of a rejection. *)
Definition rejectionOf (outcome : Outcome unit) : option Error :=
  match outcome with
  | Rejected e => Some e
  | Resolved _ => None
  end.

End StatusHandler.

(** ** A glob matcher for the examples

    Literal characters, [?], [*] inside a path segment and [**] for any
    number of segments, dotfiles included. It stands in for [minimatch] where
    an example needs a concrete matcher; every theorem below holds for an
    arbitrary matcher. *)

Module Glob.

Fixpoint segments (path : string) : list string :=
  match path with
  | EmptyString => [EmptyString]
  | String c rest =>
      if decide (c = "/"%char) then EmptyString :: segments rest
      else match segments rest with
           | seg :: more => String c seg :: more
           | [] => [String c EmptyString]
           end
  end.

Fixpoint segmentMatch (pattern : string) : string → bool :=
  match pattern with
  | EmptyString => λ s, bool_decide (s = EmptyString)
  | String p pattern' =>
      if decide (p = "*"%char) then
        fix star (s : string) : bool :=
          segmentMatch pattern' s
          || match s with
             | EmptyString => false
             | String _ s' => star s'
             end
      else if decide (p = "?"%char) then
        λ s, match s with
             | EmptyString => false
             | String _ s' => segmentMatch pattern' s'
             end
      else
        λ s, match s with
             | EmptyString => false
             | String c s' => bool_decide (p = c) && segmentMatch pattern' s'
             end
  end.

Fixpoint pathMatch (patterns : list string) : list string → bool :=
  match patterns with
  | [] => λ segs, bool_decide (segs = [])
  | p :: patterns' =>
      if decide (p = "**") then
        fix star (segs : list string) : bool :=
          pathMatch patterns' segs
          || match segs with
             | [] => false
             | _ :: segs' => star segs'
             end
      else
        λ segs, match segs with
                | [] => false
                | s :: segs' => segmentMatch p s && pathMatch patterns' segs'
                end
  end.

Definition glob (filename pattern : string) : bool :=
  pathMatch (segments pattern) (segments filename).

End Glob.

(** ** Data of the test suites

    The configuration, pull request and remotes that [automerge.test.ts]
    builds with [makeConfig], [makeFile] and [createMockPROperations]; the
    label name and the exact-match label test stand in for [LABELS.AUTOMERGE]
    and [isLabelMatch]. *)

Module TestData.
Import Automerge PROps Evaluator.

Definition automergeLabel : string := "hivemoot:automerge".

Definition exactLabelMatch (name label : string) : bool :=
  bool_decide (name = label).

Definition makeConfig : AutomergeConfig :=
  {| dryRun := true;
     allowedPaths := ["**/*.md"; "**/*.txt"; "docs/**"];
     denyPaths := [".github/**"; "package.json"];
     maxFiles := 5;
     maxChangedLines := 80;
     minApprovals := 2;
     requireChecks := true |}.

Definition makeFile (filename : string) (additions deletions : Z) : PRFile :=
  {| filename := filename;
     additions := additions;
     deletions := deletions;
     changes := additions + deletions;
     status := "modified";
     previous_filename := None |}.

Definition baseRef : PRRef :=
  {| owner := "org"; repo := "repo"; prNumber := 42 |}.

(** [createMockPROperations] with the given labels, files, approvers and
    check runs; every call resolves. *)
Definition mockStore (labels : list string) (files : list PRFile)
    (approvers : gset string) (runs : list CheckRun) : Store :=
  {| labelsOf := λ _, labels;
     labelsDown := λ _, None;
     filesOf := λ _ _, Resolved files;
     approversOf := λ _, Resolved approvers;
     pullOf := λ _, Resolved {| headSha := "abc123" |};
     checkRunsOf := λ _ _ _,
       Resolved {| totalCount := Z.of_nat (length runs); checkRuns := runs |};
     combinedStatusOf := λ _ _ _,
       Resolved {| state := "success"; statusCount := 0 |};
     addLabelsDown := λ _, None;
     removeLabelDown := λ _, None |}.

(** The same remote with [listFiles] rejecting. *)
Definition withFilesDown (e : Error) (s : Store) : Store :=
  {| labelsOf := labelsOf s;
     labelsDown := labelsDown s;
     filesOf := λ _ _, Rejected e;
     approversOf := approversOf s;
     pullOf := pullOf s;
     checkRunsOf := checkRunsOf s;
     combinedStatusOf := combinedStatusOf s;
     addLabelsDown := addLabelsDown s;
     removeLabelDown := removeLabelDown s |}.

Definition successRun : CheckRun :=
  {| runId := 1; runStatus := "completed"; conclusion := Some "success" |}.

Definition makeParams (config : option AutomergeConfig)
    (headSha : option string) : AutomergeParams :=
  {| ref := baseRef;
     config := config;
     trustedReviewers := ["alice"; "bob"];
     paramHeadSha := headSha;
     currentLabels := None;
     log := false |}.

(** "adds label when all conditions pass". *)
Definition passingStore : Store :=
  mockStore [] [makeFile "README.md" 5 0] {[ "alice"; "bob" ]} [successRun].

(** "short-circuits at file classification". *)
Definition ineligibleStore : Store :=
  mockStore [] [makeFile "src/main.ts" 5 0] ∅ [].

(** "short-circuits at approvals". *)
Definition oneApprovalStore : Store :=
  mockStore [] [makeFile "README.md" 5 0] {[ "alice" ]} [].

(** "propagates errors from API calls". *)
Definition failingStore : Store :=
  withFilesDown "API error" (mockStore [] [] ∅ []).

Definition evaluate (s : Store) (params : AutomergeParams)
  : Outcome AutomergeResult * World :=
  evaluateOn Glob.glob exactLabelMatch automergeLabel s params.

(** "removes label when approvals drop below threshold". *)
Definition droppedApprovalStore : Store :=
  mockStore [automergeLabel] [makeFile "README.md" 5 0] {[ "alice" ]} [].

(** The passing remote with [addLabels] rejecting. *)
Definition addLabelsDownStore : Store :=
  {| labelsOf := labelsOf passingStore;
     labelsDown := labelsDown passingStore;
     filesOf := filesOf passingStore;
     approversOf := approversOf passingStore;
     pullOf := pullOf passingStore;
     checkRunsOf := checkRunsOf passingStore;
     combinedStatusOf := combinedStatusOf passingStore;
     addLabelsDown := λ _, Some "label API error";
     removeLabelDown := removeLabelDown passingStore |}.

(** "uses pre-fetched currentLabels when provided". *)
Definition prefetchedParams : AutomergeParams :=
  {| ref := baseRef;
     config := Some makeConfig;
     trustedReviewers := ["alice"; "bob"];
     paramHeadSha := None;
     currentLabels := Some [];
     log := false |}.

(** [makeConfig({ maxFiles, minApprovals })]. *)
Definition makeConfigWith (maxFiles minApprovals : Z) : AutomergeConfig :=
  {| dryRun := true;
     allowedPaths := ["**/*.md"; "**/*.txt"; "docs/**"];
     denyPaths := [".github/**"; "package.json"];
     maxFiles := maxFiles;
     maxChangedLines := 80;
     minApprovals := minApprovals;
     requireChecks := true |}.

(** "allows renamed file when both source and destination pass". *)
Definition renamedFile : PRFile :=
  {| filename := "docs/new-guide.md";
     additions := 2;
     deletions := 0;
     changes := 2;
     status := "renamed";
     previous_filename := Some "docs/old-guide.md" |}.

(** [createStatusContext] of [status-handler.test.ts]. *)
Definition statusPayload : StatusHandler.StatusPayload :=
  {| StatusHandler.sha := "abc123";
     StatusHandler.repository :=
       {| StatusHandler.ownerLogin := "hivemoot";
          StatusHandler.name := "hivemoot-bot";
          StatusHandler.full_name := "hivemoot/hivemoot-bot" |} |}.

Definition openPulls : list StatusHandler.ListedPR :=
  [ StatusHandler.mkListedPR 11 "abc123";
    StatusHandler.mkListedPR 12 "def456";
    StatusHandler.mkListedPR 13 "abc123" ].

Definition loadedConfig (owner repo : string)
  : Outcome StatusHandler.RepoConfig :=
  Resolved
    {| StatusHandler.mergeReady :=
         Some {| StatusHandler.requiredApprovals := 1 |};
       StatusHandler.trustedReviewers := ["hivemoot-builder"] |}.

(** The mocked evaluator: it records the reference and head SHA of each
    call, resolves the first call and rejects the second
    ([mockResolvedValueOnce], [mockRejectedValueOnce]). *)
Definition mockedEvaluate (ref : PRRef)
    (ready : StatusHandler.MergeReadyConfig) (trusted : list string)
    (headSha : string) (calls : list (PRRef * string))
  : Outcome unit * list (PRRef * string) :=
  (if decide (length calls = 1%nat) then Rejected "review API unavailable"
   else Resolved tt, calls ++ [(ref, headSha)]).

Definition handleStatus
  : Outcome unit * list (PRRef * string) * list StatusHandler.Event :=
  StatusHandler.statusHandler (list (PRRef * string)) mockedEvaluate
    loadedConfig (λ _, Resolved openPulls) statusPayload [].

End TestData.

(** * Properties *)

(** ** The file-change classifier *)

Module ClassifierFacts.
Import Automerge.

Section Facts.

Context (minimatch : string → string → bool).

Local Abbreviation isFileAllowed := (Automerge.isFileAllowed minimatch).
Local Abbreviation classifyFiles := (Automerge.classifyFiles minimatch).
Local Abbreviation patternLoop := (Automerge.patternLoop minimatch).
Local Abbreviation pathLoop := (Automerge.pathLoop minimatch).
Local Abbreviation pathsAllowed := (Automerge.pathsAllowed minimatch).
Local Abbreviation pathReason := (Automerge.pathReason minimatch).

Lemma patternLoop_existsb filename patterns v :
  patternLoop filename patterns v
  = if existsb (minimatch filename) patterns then Returned v else FellThrough.
Proof.
  induction patterns as [|p ps IH]; simpl; [done|].
  destruct (minimatch filename p); simpl; [done|apply IH].
Qed.

Lemma existsb_elem_of {A} (f : A → bool) (l : list A) :
  existsb f l = true ↔ ∃ x, x ∈ l ∧ f x = true.
Proof.
  rewrite existsb_exists. split; intros (x & Hx & Hf); exists x;
    split; try done; by apply list_elem_of_In.
Qed.

Lemma totalChangedLines_sum files :
  totalChangedLines files = sumChangedLines files.
Proof.
  unfold totalChangedLines, sumChangedLines.
  assert (H : ∀ acc,
    fold_left (λ total file, total + (additions file + deletions file))
      files acc
    = acc + foldr Z.add 0 ((λ file, additions file + deletions file) <$> files)).
  { induction files as [|f fs IH]; intros acc; [simpl; lia|].
    rewrite fmap_cons. cbn [fold_left foldr]. rewrite IH. lia. }
  rewrite H. lia.
Qed.

Lemma pathsAllowed_dec config file :
  pathsAllowed config file ∨ ¬ pathsAllowed config file.
Proof.
  unfold Automerge.pathsAllowed.
  destruct (isFileAllowed (filename file) _ _) eqn:E1.
  - destruct (truthy (previous_filename file)) as [prev|] eqn:E2.
    + destruct (isFileAllowed prev (allowedPaths config) (denyPaths config))
        eqn:E3.
      * left. split; [done|]. intros p [= <-]. done.
      * right. intros [_ H]. specialize (H prev eq_refl). congruence.
    + left. split; [done|]. intros p [=].
  - right. intros [H _]. congruence.
Qed.

Lemma pathLoop_fell_through files config :
  pathLoop files config = FellThrough ↔ Forall (pathsAllowed config) files.
Proof.
  induction files as [|f fs IH]; simpl.
  - split; [constructor|done].
  - unfold Automerge.pathsAllowed at 1.
    destruct (isFileAllowed (filename f) _ _) eqn:E1; simpl.
    + destruct (truthy (previous_filename f)) as [prev|] eqn:E2.
      * destruct (isFileAllowed prev _ _) eqn:E3; simpl.
        -- rewrite IH. split.
           ++ intros H. constructor; [|done]. split; [done|].
              unfold Automerge.pathsAllowed. rewrite E2. intros p [= <-]. done.
           ++ intros H. by inversion H.
        -- split; [done|]. intros H. inversion H as [|? ? [_ Hp] _]; subst.
           specialize (Hp prev E2). congruence.
      * rewrite IH. split.
        -- intros H. constructor; [|done]. split; [done|].
           rewrite E2. intros p [=].
        -- intros H. by inversion H.
    + split; [done|]. intros H. inversion H as [|? ? [Hp _] _]; subst.
      congruence.
Qed.

Lemma pathLoop_first_violation pre file post config :
  Forall (pathsAllowed config) pre →
  ¬ pathsAllowed config file →
  pathLoop (pre ++ file :: post) config
  = Returned {| eligible := false; reason := pathReason config file |}.
Proof.
  intros Hpre Hbad. induction Hpre as [|g gs [Hg1 Hg2] _ IH]; simpl.
  - unfold Automerge.pathReason, Automerge.pathsAllowed in *.
    destruct (isFileAllowed (filename file) _ _) eqn:E1; simpl; [|done].
    destruct (truthy (previous_filename file)) as [prev|] eqn:E2.
    + destruct (isFileAllowed prev _ _) eqn:E3; simpl; [|done].
      exfalso. apply Hbad. split; [done|]. intros p [= <-]. done.
    + exfalso. apply Hbad. split; [done|]. intros p [=].
  - rewrite Hg1. simpl.
    destruct (truthy (previous_filename g)) as [prev|] eqn:E2; [|done].
    rewrite (Hg2 prev eq_refl). done.
Qed.

(** C6. [isFileAllowed] is not-any(deny matches) and any(allow matches):
    it returns true iff no deny pattern matches the file name and at least
    one allow pattern matches it. Hence a file matching both an allow and a
    deny pattern is rejected, an empty allow list allows no file, and an
    empty deny list denies none. *)
Theorem isFileAllowed_deny_then_allow filename allowed deny :
  isFileAllowed filename allowed deny
  = negb (existsb (minimatch filename) deny)
    && existsb (minimatch filename) allowed
  ∧ (isFileAllowed filename allowed deny = true
     ↔ (¬ ∃ p, p ∈ deny ∧ minimatch filename p = true)
       ∧ ∃ p, p ∈ allowed ∧ minimatch filename p = true)
  ∧ (∀ pa pd, pa ∈ allowed → pd ∈ deny →
       minimatch filename pa = true → minimatch filename pd = true →
       isFileAllowed filename allowed deny = false)
  ∧ isFileAllowed filename [] deny = false
  ∧ (isFileAllowed filename allowed [] = true
     ↔ ∃ p, p ∈ allowed ∧ minimatch filename p = true).
Proof.
  assert (Heq : ∀ a d, isFileAllowed filename a d
    = negb (existsb (minimatch filename) d)
      && existsb (minimatch filename) a).
  { intros a d. unfold Automerge.isFileAllowed.
    rewrite !patternLoop_existsb.
    destruct (existsb _ d); simpl; [done|].
    by destruct (existsb _ a). }
  assert (Hiff : ∀ a d, isFileAllowed filename a d = true
     ↔ (¬ ∃ p, p ∈ d ∧ minimatch filename p = true)
       ∧ ∃ p, p ∈ a ∧ minimatch filename p = true).
  { intros a d. rewrite Heq, andb_true_iff, negb_true_iff.
    rewrite <- !existsb_elem_of.
    destruct (existsb _ d); split; intros [H1 H2]; split;
      try done; try congruence. }
  split; [apply Heq|]. split; [apply Hiff|]. split; [|split].
  - intros pa pd Ha Hd Hma Hmd.
    destruct (isFileAllowed filename allowed deny) eqn:E; [|done].
    apply Hiff in E as [Hno _]. exfalso. apply Hno. by exists pd.
  - rewrite Heq. simpl. apply andb_false_r.
  - rewrite Hiff. split; [by intros [_ H]|].
    intros H. split; [|done]. intros (p & Hp & _). by apply elem_of_nil in Hp.
Qed.

(** C1. [classifyFiles] is ineligible iff the list is empty, or has more
    than [maxFiles] files, or the sum of additions and deletions exceeds
    [maxChangedLines], or some file's name (or, for a renamed file, its
    previous name) fails [isFileAllowed]; the reason reported is that of the
    first violated condition in this order, and within the path rules that
    of the first offending file. *)
Theorem classifyFiles_first_violation files config :
  let result := classifyFiles files config in
  let count := Z.of_nat (length files) in
  (eligible result = false
   ↔ files = []
     ∨ count > maxFiles config
     ∨ sumChangedLines files > maxChangedLines config
     ∨ ∃ file, file ∈ files ∧ ¬ pathsAllowed config file)
  ∧ (files = [] → reason result = "no files changed")
  ∧ (files ≠ [] → count > maxFiles config →
     reason result
     = "too many files: " +:+ pretty count
       +:+ " > " +:+ pretty (maxFiles config))
  ∧ (files ≠ [] → count ≤ maxFiles config →
     sumChangedLines files > maxChangedLines config →
     reason result
     = "too many changed lines: " +:+ pretty (sumChangedLines files)
       +:+ " > " +:+ pretty (maxChangedLines config))
  ∧ (files ≠ [] → count ≤ maxFiles config →
     sumChangedLines files ≤ maxChangedLines config →
     ∀ pre file post, files = pre ++ file :: post →
       Forall (pathsAllowed config) pre → ¬ pathsAllowed config file →
       reason result = pathReason config file)
  ∧ (eligible result = true → reason result = "all file checks passed").
Proof.
  intros result count. subst result count.
  unfold Automerge.classifyFiles. rewrite totalChangedLines_sum.
  assert (Hlen : Z.of_nat (length files) = 0 ↔ files = []).
  { destruct files; simpl; split; intros; try done; lia. }
  destruct (decide (Z.of_nat (length files) = 0)) as [E0|E0].
  { apply Hlen in E0 as ->. simpl. repeat split; try done; try tauto. }
  assert (Hne : files ≠ []) by (intros H; by apply Hlen in H).
  destruct (decide (Z.of_nat (length files) > maxFiles config)) as [E1|E1].
  { simpl. repeat split; try done; try tauto; intros; lia. }
  destruct (decide (sumChangedLines files > maxChangedLines config))
    as [E2|E2].
  { simpl. repeat split; try done; try tauto; intros; lia. }
  destruct (pathLoop files config) as [r|] eqn:E3.
  - assert (Hnot : ¬ Forall (pathsAllowed config) files).
    { intros H. apply pathLoop_fell_through in H. congruence. }
    assert (Hsplit : ∃ pre file post, files = pre ++ file :: post
       ∧ Forall (pathsAllowed config) pre ∧ ¬ pathsAllowed config file).
    { clear -Hnot. induction files as [|f fs IH].
      - destruct Hnot. constructor.
      - destruct (pathsAllowed_dec config f) as [Hf|Hf].
        + destruct IH as (pre & g & post & -> & Hpre & Hg).
          { intros H. apply Hnot. by constructor. }
          exists (f :: pre), g, post. repeat split; try done.
          by constructor.
        + exists [], f, fs. repeat split; try done. }
    destruct Hsplit as (pre & file & post & Hfiles & Hpre & Hbad).
    assert (Hr : r = {| eligible := false;
                        reason := pathReason config file |}).
    { rewrite Hfiles in E3.
      rewrite (pathLoop_first_violation pre file post config Hpre Hbad) in E3.
      congruence. }
    subst r. simpl. repeat split; try done; try lia.
    + intros _. right. right. right. exists file. split; [|done].
      rewrite Hfiles. apply elem_of_app. right. apply elem_of_cons. by left.
    + intros _ _ _ pre' file' post' Hfiles' Hpre' Hbad'.
      rewrite Hfiles' in E3.
      rewrite (pathLoop_first_violation pre' file' post' config Hpre' Hbad')
        in E3.
      congruence.
  - apply pathLoop_fell_through in E3. simpl. repeat split; try done; try lia.
    + intros [->|[H|[H|(file & Hin & Hbad)]]]; try done; try lia.
      exfalso. apply Hbad. rewrite Forall_forall in E3. by apply E3.
    + intros _ _ _ pre file post -> _ Hbad. exfalso. apply Hbad.
      rewrite Forall_forall in E3. apply E3.
      apply elem_of_app. right. apply elem_of_cons. by left.
Qed.

(** *** Further properties of the classifier *)

Lemma isFileAllowed_existsb filename allowed deny :
  isFileAllowed filename allowed deny
  = negb (existsb (minimatch filename) deny)
    && existsb (minimatch filename) allowed.
Proof.
  unfold Automerge.isFileAllowed. rewrite !patternLoop_existsb.
  destruct (existsb _ deny); simpl; [done|].
  by destruct (existsb _ allowed).
Qed.

Lemma existsb_Permutation {A} (f : A → bool) (l l' : list A) :
  l ≡ₚ l' → existsb f l = existsb f l'.
Proof.
  intros Hperm. apply eq_true_iff_eq. rewrite !existsb_elem_of.
  split; intros (x & Hx & Hf); exists x; split; try done.
  - by rewrite <- Hperm.
  - by rewrite Hperm.
Qed.

Lemma sumChangedLines_app files more :
  sumChangedLines (files ++ more)
  = sumChangedLines files + sumChangedLines more.
Proof.
  unfold sumChangedLines. rewrite fmap_app, foldr_app.
  induction ((λ file, additions file + deletions file) <$> files)
    as [|x xs IH]; simpl; [lia|]. rewrite IH. lia.
Qed.

Lemma sumChangedLines_Permutation files files' :
  files ≡ₚ files' → sumChangedLines files = sumChangedLines files'.
Proof.
  unfold sumChangedLines.
  induction 1 as [|x l l' _ IH|x y l|l l' l'' _ IH1 _ IH2];
    rewrite ?fmap_cons; simpl; try lia; try congruence.
Qed.

Lemma sumChangedLines_nonneg files :
  (∀ file, file ∈ files → 0 ≤ additions file + deletions file) →
  0 ≤ sumChangedLines files.
Proof.
  unfold sumChangedLines. induction files as [|f fs IH]; intros Hnn.
  - simpl. lia.
  - rewrite fmap_cons. simpl.
    assert (0 ≤ additions f + deletions f)
      by (apply Hnn, elem_of_cons; by left).
    assert (0 ≤ foldr Z.add 0
              ((λ file, additions file + deletions file) <$> fs)).
    { apply IH. intros g Hg. apply Hnn, elem_of_cons. by right. }
    lia.
Qed.

(** Eligibility as one conjunction. *)
Lemma classifyFiles_eligible_iff files config :
  eligible (classifyFiles files config) = true
  ↔ files ≠ []
    ∧ Z.of_nat (length files) ≤ maxFiles config
    ∧ sumChangedLines files ≤ maxChangedLines config
    ∧ Forall (pathsAllowed config) files.
Proof.
  unfold Automerge.classifyFiles. rewrite totalChangedLines_sum.
  destruct (decide (Z.of_nat (length files) = 0)) as [E0|E0].
  { simpl. split; [done|]. intros (Hne & _). destruct files; [done|].
    simpl in E0. lia. }
  destruct (decide (Z.of_nat (length files) > maxFiles config)) as [E1|E1].
  { simpl. split; [done|]. intros (_ & H & _). lia. }
  destruct (decide (sumChangedLines files > maxChangedLines config))
    as [E2|E2].
  { simpl. split; [done|]. intros (_ & _ & H & _). lia. }
  assert (Hne : files ≠ []) by (intros ->; simpl in E0; lia).
  destruct (pathLoop files config) as [r|] eqn:E3.
  - assert (Hnot : ¬ Forall (pathsAllowed config) files).
    { intros H. apply pathLoop_fell_through in H. congruence. }
    assert (Hr : eligible r = false).
    { clear -E3. revert E3. induction files as [|f fs IH]; simpl; [done|].
      destruct (negb _); [by intros [= <-]|].
      destruct (truthy _); [|done].
      destruct (negb _); [by intros [= <-]|done]. }
    rewrite Hr. split; [done|]. by intros (_ & _ & _ & H).
  - apply pathLoop_fell_through in E3. simpl. split; [|done].
    intros _. repeat split; try done; lia.
Qed.

(** X1. Pattern lists compose: allow patterns from two lists allow what
    either list allows, deny patterns from two lists deny what either list
    denies. *)
Theorem isFileAllowed_append filename allow1 allow2 deny1 deny2 :
  isFileAllowed filename (allow1 ++ allow2) deny1
  = isFileAllowed filename allow1 deny1
    || isFileAllowed filename allow2 deny1
  ∧ isFileAllowed filename allow1 (deny1 ++ deny2)
    = isFileAllowed filename allow1 deny1
      && isFileAllowed filename allow1 deny2.
Proof.
  rewrite !isFileAllowed_existsb, !existsb_app. split.
  - destruct (existsb _ deny1), (existsb _ allow1), (existsb _ allow2); done.
  - destruct (existsb _ deny1), (existsb _ deny2), (existsb _ allow1); done.
Qed.

(** X2. The order of the patterns in the allow and deny lists never
    matters. *)
Theorem isFileAllowed_Permutation filename allowed allowed' deny deny' :
  allowed ≡ₚ allowed' → deny ≡ₚ deny' →
  isFileAllowed filename allowed deny = isFileAllowed filename allowed' deny'.
Proof.
  intros Ha Hd. rewrite !isFileAllowed_existsb.
  by rewrite (existsb_Permutation _ _ _ Ha), (existsb_Permutation _ _ _ Hd).
Qed.

(** X3. Eligibility does not depend on the order in which the files are
    listed (the reported reason may). *)
Theorem classifyFiles_Permutation files files' config :
  files ≡ₚ files' →
  eligible (classifyFiles files config)
  = eligible (classifyFiles files' config).
Proof.
  intros Hperm. apply eq_true_iff_eq. rewrite !classifyFiles_eligible_iff.
  rewrite (Permutation_length Hperm),
    (sumChangedLines_Permutation _ _ Hperm).
  split; intros (Hne & Hlen & Hsum & Hall); repeat split; try done.
  - intros ->. apply Permutation_nil_r in Hperm. done.
  - by rewrite <- Hperm.
  - intros ->. apply Permutation_nil_l in Hperm. done.
  - by rewrite Hperm.
Qed.

(** X4. An eligible pull request touches no denied path: for every file,
    its name and, for a rename, the name it had before match no deny
    pattern and match some allow pattern. *)
Theorem classifyFiles_eligible_paths files config file path :
  eligible (classifyFiles files config) = true →
  file ∈ files →
  path = filename file ∨ truthy (previous_filename file) = Some path →
  (∀ pattern, pattern ∈ denyPaths config → minimatch path pattern = false)
  ∧ ∃ pattern, pattern ∈ allowedPaths config
               ∧ minimatch path pattern = true.
Proof.
  intros Helig Hin Hpath.
  apply classifyFiles_eligible_iff in Helig as (_ & _ & _ & Hall).
  rewrite Forall_forall in Hall. destruct (Hall file Hin) as [Hname Hprev].
  assert (Hok : isFileAllowed path (allowedPaths config) (denyPaths config)
                = true).
  { destruct Hpath as [->|Hp]; [done|by apply Hprev]. }
  rewrite isFileAllowed_existsb in Hok.
  apply andb_true_iff in Hok as [Hdeny Hallow].
  apply negb_true_iff in Hdeny. split.
  - intros pattern Hp. apply not_true_is_false. intros Hm.
    assert (existsb (minimatch path) (denyPaths config) = true)
      by (apply existsb_elem_of; by exists pattern).
    congruence.
  - by apply existsb_elem_of.
Qed.

Lemma pathLoop_truthy_previous files config :
  pathLoop (withTruthyPrevious <$> files) config = pathLoop files config.
Proof.
  induction files as [|f fs IH]; [done|].
  rewrite fmap_cons. simpl. rewrite IH.
  destruct (negb _); [done|].
  assert (Hidem : truthy (truthy (previous_filename f))
                  = truthy (previous_filename f)).
  { destruct (previous_filename f) as [prev|]; simpl; [|done].
    destruct (decide (prev = "")) as [->|Hne]; simpl; [done|].
    by rewrite decide_False. }
  by rewrite Hidem.
Qed.

(** X5. An empty [previous_filename] is not checked: a file record that
    carries the empty string there is classified, reason included, as if
    the property were absent. *)
Theorem classifyFiles_empty_previous_filename files config :
  classifyFiles (withTruthyPrevious <$> files) config
  = classifyFiles files config.
Proof.
  unfold Automerge.classifyFiles.
  rewrite length_fmap, pathLoop_truthy_previous.
  assert (Htotal : totalChangedLines (withTruthyPrevious <$> files)
                   = totalChangedLines files).
  { rewrite !totalChangedLines_sum. unfold sumChangedLines.
    rewrite <- list_fmap_compose. done. }
  by rewrite Htotal.
Qed.

Lemma pathLoop_reason files config r :
  pathLoop files config = Returned r → reason r ≠ "".
Proof.
  induction files as [|f fs IH]; simpl; [done|].
  destruct (negb _); [by intros [= <-]|].
  destruct (truthy _); [|done].
  destruct (negb _); [by intros [= <-]|done].
Qed.

(** X6. The reason is always populated, for eligible and ineligible file
    lists alike. *)
Theorem classifyFiles_reason_populated files config :
  reason (classifyFiles files config) ≠ "".
Proof.
  unfold Automerge.classifyFiles.
  repeat (destruct (decide _); [done|]).
  destruct (pathLoop files config) as [r|] eqn:E; [|done].
  by apply (pathLoop_reason files config).
Qed.

(** X7. Degenerate configurations accept nothing: with [maxFiles] below 1
    or with an empty allow list, every file list is ineligible. *)
Theorem classifyFiles_degenerate_config files config :
  maxFiles config < 1 ∨ allowedPaths config = [] →
  eligible (classifyFiles files config) = false.
Proof.
  intros Hdeg. apply not_true_is_false. intros Helig.
  apply classifyFiles_eligible_iff in Helig as (Hne & Hlen & _ & Hall).
  destruct files as [|f fs]; [done|]. destruct Hdeg as [Hmax|Hallow].
  - simpl in Hlen. lia.
  - inversion Hall as [|? ? [Hf _] _]; subst.
    rewrite isFileAllowed_existsb, Hallow in Hf. simpl in Hf.
    by rewrite andb_false_r in Hf.
Qed.

(** X8. Adding files never rescues a pull request: a non-empty ineligible
    file list stays ineligible when more files, with non-negative line
    counts, are added to it. *)
Theorem classifyFiles_more_files_stay_ineligible files more config :
  files ≠ [] →
  (∀ file, file ∈ more → 0 ≤ additions file + deletions file) →
  eligible (classifyFiles files config) = false →
  eligible (classifyFiles (files ++ more) config) = false.
Proof.
  intros Hne Hnn Hbad. apply not_true_is_false. intros Helig.
  apply classifyFiles_eligible_iff in Helig as (_ & Hlen & Hsum & Hall).
  assert (Hgood : eligible (classifyFiles files config) = true);
    [|congruence].
  apply classifyFiles_eligible_iff. repeat split; try done.
  - rewrite length_app in Hlen. lia.
  - rewrite sumChangedLines_app in Hsum.
    pose proof (sumChangedLines_nonneg more Hnn). lia.
  - by apply Forall_app in Hall as [H _].
Qed.

End Facts.

End ClassifierFacts.

(** ** The automerge label evaluator *)

Module EvaluatorFacts.
Import Automerge PROps Evaluator.

Section Facts.

Context (minimatch : string → string → bool).
Context (isLabelMatch : string → string → bool) (AUTOMERGE : string).

Local Abbreviation evaluateOn :=
  (Evaluator.evaluateOn minimatch isLabelMatch AUTOMERGE).
Local Abbreviation hasAutomergeLabel :=
  (Evaluator.hasAutomergeLabel isLabelMatch AUTOMERGE).
Local Abbreviation classifyFiles := (Automerge.classifyFiles minimatch).

(** Symbolic execution of one evaluation: unfold the computation, then
    split on the answer of each remote call and on each test, innermost
    first, reusing what the context already knows. *)
Ltac unfold_eval :=
  unfold Evaluator.evaluateOn, evaluateAutomerge, removeIfLabeled,
    addIfMissing, isCIPassing, getLabels, listFiles, getApproverLogins, get,
    getCheckRunsForRef, getCombinedStatus, addLabels, removeLabel, logInfo,
    perform, bind, ret, orDown.

Ltac reduce_world :=
  cbn [store trace logged fst snd app id
       ref config trustedReviewers paramHeadSha currentLabels log
       setLabels labelsOf labelsDown filesOf approversOf pullOf checkRunsOf
       combinedStatusOf addLabelsDown removeLabelDown
       fmap option_fmap option_map negb].

Ltac step :=
  match goal with
  | H : ?x = _ |- context [match ?x with _ => _ end] =>
      rewrite H; reduce_world
  | |- context [match ?x with _ => _ end] =>
      lazymatch x with
      | context [match _ with _ => _ end] => fail
      | _ => destruct x eqn:?
      end; reduce_world
  end.

Ltac use_eqns :=
  repeat match goal with
  | H : negb _ = true |- _ => apply negb_true_iff in H
  | H : negb _ = false |- _ => apply negb_false_iff in H
  end;
  repeat match goal with
  | H : ?x = _ |- context [?x] => rewrite H
  end.



Lemma mutationOnlyLast_split tr :
  mutationOnlyLast tr = true →
  ∀ pre e post, tr = pre ++ e :: post →
    isMutation (call e) = true → post = [].
Proof.
  intros Hlast pre. revert tr Hlast.
  induction pre as [|p pre IH]; intros tr Hlast e post -> Hmut.
  - destruct post as [|q post]; [done|]. simpl in Hlast.
    rewrite Hmut in Hlast. done.
  - simpl in Hlast. destruct (pre ++ e :: post) as [|x rest] eqn:E.
    + by destruct pre.
    + apply andb_true_iff in Hlast as [_ Hlast].
      by apply (IH _ Hlast e post).
Qed.

Lemma fetchErrors_elem tr e err :
  e ∈ tr → isMutation (call e) = false → threw e = Some err →
  err ∈ fetchErrors tr.
Proof.
  intros Hin Hfetch Hthrew. unfold fetchErrors.
  apply list_elem_of_omap. exists e. split; [done|]. by rewrite Hfetch.
Qed.

Lemma readOnly_Forall tr :
  readOnly tr = true → Forall (λ e, isMutation (call e) = false) tr.
Proof.
  unfold readOnly. rewrite forallb_forall, Forall_forall.
  intros H e He. apply negb_true_iff, H. by apply list_elem_of_In.
Qed.

(** The shape of every run: at most one fetch throws, and then the
    rejection is its error, nothing was mutated and the remote is as it
    was; a mutation is never followed by another call. *)
Lemma run_shape s params :
  let run := evaluateOn s params in
  (fetchErrors (trace run.2) = []
   ∨ ∃ err, fetchErrors (trace run.2) = [err]
       ∧ run.1 = Rejected err
       ∧ readOnly (trace run.2) = true
       ∧ store run.2 = s)
  ∧ mutationOnlyLast (trace run.2) = true.
Proof.
  unfold_eval. reduce_world. repeat step.
  all: split; [|reflexivity].
  all: first [ left; reflexivity
             | right; eexists; repeat split; reflexivity ].
Qed.

(** C3. When an upstream fetch of an evaluation throws, the evaluation
    rejects with that error, no label was added or removed and the remote is
    unchanged; a label mutation, when there is one, is the last remote call
    of the evaluation. *)
Theorem evaluateAutomerge_fetch_failure_atomic s params cfg :
  config params = Some cfg →
  let run := evaluateOn s params in
  (∀ e err, e ∈ trace run.2 → isMutation (call e) = false →
     threw e = Some err →
     run.1 = Rejected err
     ∧ Forall (λ e', isMutation (call e') = false) (trace run.2)
     ∧ store run.2 = s)
  ∧ (∀ pre e post, trace run.2 = pre ++ e :: post →
       isMutation (call e) = true → post = []).
Proof.
  intros _ run. subst run.
  destruct (run_shape s params) as [Hfetch Hlast]. split.
  - intros e err Hin Hm Hthrew.
    pose proof (fetchErrors_elem _ _ _ Hin Hm Hthrew) as Herr.
    destruct Hfetch as [Hnone|(err' & Hone & Hrej & Hro & Hstore)].
    + rewrite Hnone in Herr. by apply elem_of_nil in Herr.
    + rewrite Hone in Herr. apply list_elem_of_singleton in Herr as ->.
      repeat split; try done. by apply readOnly_Forall.
  - by apply mutationOnlyLast_split.
Qed.

(** C4. An evaluation whose file classification is ineligible never calls
    [getApproverLogins] (nor resolves the head SHA or queries CI); one whose
    trusted-approval count is below [minApprovals] never resolves the head
    SHA and never calls [getCheckRunsForRef] or [getCombinedStatus]. *)
Theorem evaluateAutomerge_short_circuit s params cfg :
  config params = Some cfg →
  let tr := trace (evaluateOn s params).2 in
  (∀ files, filesOf s (ref params) (maxFiles cfg) = Resolved files →
     eligible (classifyFiles files cfg) = false →
     Forall (λ e, isApprovalQuery (call e) = false
                  ∧ isHeadQuery (call e) = false
                  ∧ isCIQuery (call e) = false) tr)
  ∧ (∀ approvers, approversOf s (ref params) = Resolved approvers →
     Z.of_nat (trustedApprovalCount (trustedReviewers params) approvers)
     < minApprovals cfg →
     Forall (λ e, isHeadQuery (call e) = false
                  ∧ isCIQuery (call e) = false) tr).
Proof.
  intros Hcfg tr. subst tr. split.
  - intros files Hfiles Helig.
    assert (Hneg : negb (eligible (classifyFiles files cfg)) = true)
      by by rewrite Helig.
    unfold_eval. reduce_world. rewrite Hcfg. repeat step.
    all: repeat constructor.
  - intros approvers Happr Hlow.
    unfold_eval. reduce_world. rewrite Hcfg. repeat step.
    all: try contradiction.
    all: repeat constructor.
Qed.



(** *** Further properties of the evaluator *)

Ltac reduce_more :=
  cbn [store trace logged fst snd app id
       ref config trustedReviewers paramHeadSha currentLabels log
       negb initially headShaOf mutations omap list_omap isMutation call
       threw fmap list_fmap].

(** X9. The evaluation is skipped exactly when the feature is disabled, and
    then it makes no remote call and writes no log line. *)
Theorem evaluateAutomerge_skipped_iff s params :
  (config params = None →
   evaluateOn s params
   = (Resolved (Skipped "feature disabled"), initially s))
  ∧ (∀ reason, (evaluateOn s params).1 = Resolved (Skipped reason) →
       config params = None).
Proof.
  split.
  - intros Hnone. unfold Evaluator.evaluateOn, evaluateAutomerge.
    by rewrite Hnone.
  - intros reason. unfold_eval. reduce_world.
    destruct (config params) as [cfg|]; [|done].
    repeat step. all: discriminate.
Qed.

(** X10. The label is applied or kept only when every condition holds: an
    evaluation that returns labeled or noop (labeled) saw eligible files,
    enough trusted approvals and, when checks are required, passing CI for
    the head commit. *)
Theorem evaluateAutomerge_label_requires_all s params cfg r w :
  config params = Some cfg →
  evaluateOn s params = (Resolved r, w) →
  r = Labeled ∨ r = Noop true →
  ∃ files approvers,
    filesOf s (ref params) (maxFiles cfg) = Resolved files
    ∧ eligible (classifyFiles files cfg) = true
    ∧ approversOf s (ref params) = Resolved approvers
    ∧ minApprovals cfg
      ≤ Z.of_nat (trustedApprovalCount (trustedReviewers params) approvers)
    ∧ (requireChecks cfg = true →
       ∃ sha, headShaOf s params = Resolved sha
         ∧ (isCIPassing (ref params) sha (initially s)).1 = Resolved true).
Proof.
  intros Hcfg. revert r w. unfold_eval. reduce_world. rewrite Hcfg.
  repeat step.
  all: intros r w Hrun Hr; simplify_eq; destruct Hr; simplify_eq.
  all: use_eqns.
  all: eexists _, _; repeat split; try eassumption; try lia.
  all: try (intros; discriminate).
  all: intros _; eexists; unfold headShaOf, initially; split;
    [ repeat (use_eqns; reduce_world); reflexivity
    | unfold_eval; repeat (use_eqns; reduce_world); reflexivity ].
Qed.

(** X11. When the label is withheld (noop, not labeled) or removed, one
    condition failed, and the reason of an unlabeled result names it: the
    classifier's reason, or the approval count against the minimum, or
    failing CI. *)
Theorem evaluateAutomerge_label_withheld s params cfg r w :
  config params = Some cfg →
  evaluateOn s params = (Resolved r, w) →
  r = Noop false ∨ (∃ reason, r = Unlabeled reason) →
  ∃ why,
    (r = Noop false ∨ r = Unlabeled why)
    ∧ ((∃ files,
          filesOf s (ref params) (maxFiles cfg) = Resolved files
          ∧ eligible (classifyFiles files cfg) = false
          ∧ why = Automerge.reason (classifyFiles files cfg))
       ∨ (∃ approvers,
            approversOf s (ref params) = Resolved approvers
            ∧ Z.of_nat (trustedApprovalCount (trustedReviewers params)
                          approvers) < minApprovals cfg
            ∧ why = "insufficient approvals: "
                    +:+ pretty (Z.of_nat (trustedApprovalCount
                                            (trustedReviewers params)
                                            approvers))
                    +:+ "/" +:+ pretty (minApprovals cfg))
       ∨ (requireChecks cfg = true
          ∧ why = "CI not passing"
          ∧ ∃ sha, headShaOf s params = Resolved sha
              ∧ (isCIPassing (ref params) sha (initially s)).1
                = Resolved false)).
Proof.
  intros Hcfg. revert r w. unfold_eval. reduce_world. rewrite Hcfg.
  repeat step.
  all: intros r w Hrun Hr; simplify_eq;
    destruct Hr as [?|[? ?]]; simplify_eq.
  all: use_eqns.
  all: eexists; split; [first [left; reflexivity|right; reflexivity]|].
  all: first
    [ left; eexists; split; [|split];
      [first [eassumption|reflexivity]|eassumption|reflexivity]
    | right; left; eexists; split; [|split];
      [first [eassumption|reflexivity]|assumption|reflexivity]
    | right; right; split; [first [assumption|reflexivity]|];
      split; [reflexivity|];
      eexists; unfold headShaOf, initially; split;
      [ repeat (use_eqns; reduce_world); reflexivity
      | unfold_eval; repeat (use_eqns; reduce_world); reflexivity ] ].
Qed.

(** X12. The action returned reports the mutation performed: labeled after
    exactly one successful [addLabels] of the automerge label on this pull
    request, unlabeled after exactly one successful [removeLabel] of it,
    and no mutation at all otherwise. *)
Theorem evaluateAutomerge_action_reports_mutation s params r w :
  evaluateOn s params = (Resolved r, w) →
  mutations (trace w)
  = match r with
    | Labeled =>
        [{| call := AddLabels (ref params) [AUTOMERGE]; threw := None |}]
    | Unlabeled _ =>
        [{| call := RemoveLabel (ref params) AUTOMERGE; threw := None |}]
    | _ => []
    end.
Proof.
  revert r w. unfold_eval. reduce_world. repeat step.
  all: intros r w Hrun; simplify_eq; reflexivity.
Qed.

Lemma mutation_failure_shape s params :
  let run := evaluateOn s params in
  mutationErrors (trace run.2) = []
  ∨ ∃ err, mutationErrors (trace run.2) = [err]
      ∧ run.1 = Rejected err
      ∧ store run.2 = s
      ∧ logged run.2 = [].
Proof.
  unfold_eval. reduce_world. repeat step.
  all: first [ left; reflexivity
             | right; eexists; repeat split; reflexivity ].
Qed.

(** X13. A label mutation that throws makes the evaluation reject with
    that error; the remote is left as it was and nothing is logged. *)
Theorem evaluateAutomerge_mutation_failure s params e err :
  e ∈ trace (evaluateOn s params).2 →
  isMutation (call e) = true →
  threw e = Some err →
  (evaluateOn s params).1 = Rejected err
  ∧ store (evaluateOn s params).2 = s
  ∧ logged (evaluateOn s params).2 = [].
Proof.
  intros Hin Hmut Hthrew.
  assert (Herr : err ∈ mutationErrors (trace (evaluateOn s params).2)).
  { unfold mutationErrors. apply list_elem_of_omap. exists e.
    split; [done|]. by rewrite Hmut. }
  destruct (mutation_failure_shape s params)
    as [Hnone|(err' & Hone & Hrej & Hstore & Hlog)].
  - rewrite Hnone in Herr. by apply elem_of_nil in Herr.
  - rewrite Hone in Herr. apply list_elem_of_singleton in Herr as ->. done.
Qed.

Ltac in_order :=
  unfold canonicalCalls; cbn [fmap list_fmap call];
  repeat first [apply sublist_nil | apply sublist_skip | apply sublist_cons].

(** X14. The remote calls of an evaluation follow the order of the source,
    cheapest first, each at most once: labels, files (with [maxFiles] as
    early-exit threshold), approvals, head commit, check runs, combined
    status, label mutation. *)
Theorem evaluateAutomerge_call_order s params cfg :
  config params = Some cfg →
  ∃ sha, sublist (call <$> trace (evaluateOn s params).2)
                 (canonicalCalls AUTOMERGE (ref params) cfg sha).
Proof.
  intros Hcfg. unfold_eval. reduce_world. rewrite Hcfg. repeat step.
  all: first [ solve [exists ""; in_order] | solve [eexists; in_order] ].
Qed.

(** X15. Inputs passed by the caller save the call: with pre-fetched labels
    [getLabels] is never called, with a head SHA the pull request is never
    fetched, and when checks are not required neither the pull request nor
    CI is queried; without pre-fetched labels [getLabels] is the first
    call. *)
Theorem evaluateAutomerge_prefetched_inputs s params cfg :
  config params = Some cfg →
  let tr := trace (evaluateOn s params).2 in
  (is_Some (currentLabels params) →
   Forall (λ e, isLabelQuery (call e) = false) tr)
  ∧ (is_Some (truthy (paramHeadSha params)) →
     Forall (λ e, isHeadQuery (call e) = false) tr)
  ∧ (requireChecks cfg = false →
     Forall (λ e, isHeadQuery (call e) = false
                  ∧ isCIQuery (call e) = false) tr)
  ∧ (currentLabels params = None →
     ∃ rest, call <$> tr = GetLabels (ref params) :: rest).
Proof.
  intros Hcfg tr. subst tr. repeat split.
  - intros [labels Hlabels]. unfold_eval. reduce_world.
    rewrite Hcfg, Hlabels. repeat step. all: repeat constructor.
  - intros [sha Hsha]. unfold_eval. reduce_world.
    rewrite Hcfg. repeat step. all: repeat constructor.
  - intros Hreq. unfold_eval. reduce_world.
    rewrite Hcfg. repeat step. all: repeat constructor.
  - intros Hnone. unfold_eval. reduce_world.
    rewrite Hcfg, Hnone. repeat step. all: eexists; reflexivity.
Qed.

(** X16. CI is asked about the head commit and no other: every CI query of
    an evaluation carries the repository of the pull request and the SHA
    passed by the caller, or else the one of the fetched pull request. *)
Theorem evaluateAutomerge_ci_commit s params cfg sha :
  config params = Some cfg →
  headShaOf s params = Resolved sha →
  Forall (λ e, isCIQuery (call e) = true →
               call e = GetCheckRunsForRef (owner (ref params))
                          (repo (ref params)) sha
               ∨ call e = GetCombinedStatus (owner (ref params))
                            (repo (ref params)) sha)
    (trace (evaluateOn s params).2).
Proof.
  intros Hcfg Hsha. unfold headShaOf in Hsha.
  destruct (truthy (paramHeadSha params)) as [given|] eqn:Hgiven.
  - injection Hsha as ->. unfold_eval. reduce_world. rewrite Hcfg.
    repeat step.
    all: repeat (constructor;
                 [ cbn [isCIQuery call]; intros Hq;
                   first [discriminate Hq|left; reflexivity|right; reflexivity]
                 | ]); constructor.
  - destruct (pullOf s (ref params)) as [pr|] eqn:Hpull; [|done].
    injection Hsha as <-. unfold_eval. reduce_world. rewrite Hcfg.
    repeat step.
    all: repeat (constructor;
                 [ cbn [isCIQuery call]; intros Hq;
                   first [discriminate Hq|left; reflexivity|right; reflexivity]
                 | ]); constructor.
Qed.

(** X17. The logger gets one line per label change and none otherwise:
    after a successful add or remove, when a logger was passed, the line
    names the pull request (and the reason of a removal). *)
Theorem evaluateAutomerge_log_lines s params :
  logged (evaluateOn s params).2
  = match (evaluateOn s params).1 with
    | Resolved Labeled =>
        if log params
        then ["[PR #" +:+ pretty (prNumber (ref params))
              +:+ "] Added automerge label"]
        else []
    | Resolved (Unlabeled reason) =>
        if log params
        then ["[PR #" +:+ pretty (prNumber (ref params))
              +:+ "] Removed automerge: " +:+ reason]
        else []
    | _ => []
    end.
Proof.
  unfold_eval. reduce_world. repeat step. all: reflexivity.
Qed.

Lemma trustedApprovalCount_le_length trusted (approvers : gset string) :
  (trustedApprovalCount trusted approvers ≤ length trusted)%nat.
Proof. unfold trustedApprovalCount. apply length_filter. Qed.

(** X18. A threshold above the number of configured trusted reviewers can
    never be met: the label is then never added and no evaluation returns
    labeled or noop (labeled). *)
Theorem evaluateAutomerge_unreachable_threshold s params cfg :
  config params = Some cfg →
  Z.of_nat (length (trustedReviewers params)) < minApprovals cfg →
  Forall (λ e, isAddLabels (call e) = false) (trace (evaluateOn s params).2)
  ∧ (evaluateOn s params).1 ≠ Resolved Labeled
  ∧ (evaluateOn s params).1 ≠ Resolved (Noop true).
Proof.
  intros Hcfg Hfew. unfold_eval. reduce_world. rewrite Hcfg. repeat step.
  all: try match goal with
       | n : ¬ Z.of_nat (trustedApprovalCount ?t ?a) < _ |- _ =>
           exfalso; pose proof (trustedApprovalCount_le_length t a); lia
       end.
  all: repeat split; first [discriminate|repeat constructor].
Qed.

(** X20. Pre-fetched labels are taken on trust: when the caller passes
    [currentLabels], the result and the remote calls of the evaluation do
    not depend on the labels the pull request has on the remote. *)
Theorem evaluateAutomerge_trusts_prefetched_labels s params labels f :
  currentLabels params = Some labels →
  (evaluateOn (setLabels (ref params) f s) params).1
  = (evaluateOn s params).1
  ∧ trace (evaluateOn (setLabels (ref params) f s) params).2
    = trace (evaluateOn s params).2.
Proof.
  intros Hlabels. unfold_eval. reduce_world. rewrite Hlabels.
  repeat step. all: split; reflexivity.
Qed.

End Facts.

Lemma size_intersection_cons (approvers : gset string) (r : string)
    (trusted : list string) :
  r ∉ trusted →
  size (approvers ∩ list_to_set (r :: trusted))
  = ((if decide (r ∈ approvers) then 1 else 0)
     + size (approvers ∩ list_to_set trusted))%nat.
Proof.
  intros Hfresh. rewrite list_to_set_cons.
  destruct (decide (r ∈ approvers)) as [Hin|Hout].
  - replace (approvers ∩ ({[r]} ∪ list_to_set trusted))
      with ({[r]} ∪ approvers ∩ list_to_set trusted) by set_solver.
    rewrite size_union, size_singleton; [done|].
    apply disjoint_singleton_l. rewrite elem_of_intersection.
    intros [_ Hr]. by apply elem_of_list_to_set in Hr.
  - replace (approvers ∩ ({[r]} ∪ list_to_set trusted))
      with (approvers ∩ list_to_set trusted) by set_solver.
    done.
Qed.

(** C5, as amended. For a trusted-reviewer list without repeated logins,
    the trusted-approval count of [evaluateAutomerge] is the cardinality of
    the intersection of the approver set with the trusted reviewers. *)
Theorem trustedApprovalCount_intersection (trusted : list string)
    (approvers : gset string) :
  NoDup trusted →
  trustedApprovalCount trusted approvers
  = size (approvers ∩ list_to_set trusted).
Proof.
  unfold trustedApprovalCount.
  induction 1 as [|r trusted Hfresh Hnodup IH].
  - replace (approvers ∩ list_to_set []) with (∅ : gset string)
      by set_solver.
    done.
  - rewrite size_intersection_cons by done. rewrite filter_cons.
    destruct (decide (r ∈ approvers)); simpl; by rewrite IH.
Qed.

(** X19. The trusted-approval count is at most the number of configured
    reviewers, adds up over concatenated reviewer lists, never decreases
    when more people approve, and is zero when no trusted reviewer
    approved. *)
Theorem trustedApprovalCount_bounds (trusted more : list string)
    (approvers approvers' : gset string) :
  (trustedApprovalCount trusted approvers ≤ length trusted)%nat
  ∧ trustedApprovalCount (trusted ++ more) approvers
    = (trustedApprovalCount trusted approvers
       + trustedApprovalCount more approvers)%nat
  ∧ (approvers ⊆ approvers' →
     (trustedApprovalCount trusted approvers
      ≤ trustedApprovalCount trusted approvers')%nat)
  ∧ ((∀ r, r ∈ trusted → r ∉ approvers) →
     trustedApprovalCount trusted approvers = 0%nat).
Proof.
  unfold trustedApprovalCount. repeat split.
  - apply length_filter.
  - by rewrite filter_app, length_app.
  - intros Hsub. induction trusted as [|r rs IH]; [done|].
    rewrite !filter_cons.
    destruct (decide (r ∈ approvers)) as [Hin|Hout].
    + rewrite decide_True by set_solver. simpl. lia.
    + destruct (decide (r ∈ approvers')); simpl; lia.
  - intros Hnone. induction trusted as [|r rs IH]; [done|].
    rewrite filter_cons. rewrite decide_False.
    + apply IH. intros r' Hr'. apply Hnone, elem_of_cons. by right.
    + apply Hnone, elem_of_cons. by left.
Qed.

End EvaluatorFacts.

(** ** The evaluator on the data of its test suite *)

Module EvaluatorExamples.
Import Automerge PROps Evaluator TestData.

(** "adds label when all conditions pass". *)
Example adds_label_when_all_pass :
  (evaluate passingStore (makeParams (Some makeConfig) (Some "sha123"))).1
  = Resolved Labeled.
Proof. vm_compute. reflexivity. Qed.



(** Witness of C3: with [listFiles] rejecting ("propagates errors from API
    calls") the evaluation rejects and mutates nothing. *)
Lemma evaluateAutomerge_fetch_failure_atomic_witness :
  let run := evaluate failingStore (makeParams (Some makeConfig) None) in
  (∀ e err, e ∈ trace run.2 → isMutation (call e) = false →
     threw e = Some err →
     run.1 = Rejected err
     ∧ Forall (λ e', isMutation (call e') = false) (trace run.2)
     ∧ store run.2 = failingStore)
  ∧ (∀ pre e post, trace run.2 = pre ++ e :: post →
       isMutation (call e) = true → post = []).
Proof.
  exact (EvaluatorFacts.evaluateAutomerge_fetch_failure_atomic
           Glob.glob exactLabelMatch automergeLabel failingStore
           (makeParams (Some makeConfig) None) makeConfig eq_refl).
Defined.

Example propagates_errors :
  let run := evaluate failingStore (makeParams (Some makeConfig) None) in
  run.1 = Rejected "API error"
  ∧ call <$> trace run.2 = [GetLabels baseRef; ListFiles baseRef 5].
Proof. vm_compute. done. Qed.

(** Witness of C4: the two short-circuit tests. *)
Lemma evaluateAutomerge_short_circuit_witness :
  Forall (λ e, isApprovalQuery (call e) = false
               ∧ isHeadQuery (call e) = false
               ∧ isCIQuery (call e) = false)
    (trace (evaluate ineligibleStore (makeParams (Some makeConfig) None)).2)
  ∧ Forall (λ e, isHeadQuery (call e) = false ∧ isCIQuery (call e) = false)
      (trace (evaluate oneApprovalStore (makeParams (Some makeConfig) None)).2).
Proof.
  split.
  - apply (proj1 (EvaluatorFacts.evaluateAutomerge_short_circuit
             Glob.glob exactLabelMatch automergeLabel ineligibleStore
             (makeParams (Some makeConfig) None) makeConfig eq_refl)
             [makeFile "src/main.ts" 5 0]).
    + reflexivity.
    + vm_compute. reflexivity.
  - apply (proj2 (EvaluatorFacts.evaluateAutomerge_short_circuit
             Glob.glob exactLabelMatch automergeLabel oneApprovalStore
             (makeParams (Some makeConfig) None) makeConfig eq_refl)
             {[ "alice" ]}).
    + reflexivity.
    + vm_compute. reflexivity.
Defined.

Example short_circuit_traces :
  call <$> trace (evaluate ineligibleStore
                    (makeParams (Some makeConfig) None)).2
  = [GetLabels baseRef; ListFiles baseRef 5]
  ∧ call <$> trace (evaluate oneApprovalStore
                      (makeParams (Some makeConfig) None)).2
    = [GetLabels baseRef; ListFiles baseRef 5; GetApproverLogins baseRef].
Proof. vm_compute. done. Qed.

(** Witness of C5 as amended: the reviewers of the test suite. *)
Lemma trustedApprovalCount_intersection_witness :
  trustedApprovalCount ["alice"; "bob"] {[ "alice"; "charlie" ]}
  = size (({[ "alice"; "charlie" ]} : gset string)
          ∩ list_to_set ["alice"; "bob"]).
Proof.
  apply (EvaluatorFacts.trustedApprovalCount_intersection
           ["alice"; "bob"] {[ "alice"; "charlie" ]}).
  apply (bool_decide_unpack _). vm_compute. exact I.
Defined.

(** C5 as stated fails: a login listed twice is counted twice, while the
    intersection holds it once. *)
Lemma trustedApprovalCount_counts_repeated_login :
  trustedApprovalCount ["alice"; "alice"] {[ "alice" ]} = 2%nat
  ∧ size (({[ "alice" ]} : gset string) ∩ list_to_set ["alice"; "alice"])
    = 1%nat.
Proof. vm_compute. done. Qed.

End EvaluatorExamples.

(** ** The transient-error classifier *)

Module TransientErrorFacts.
Import TransientError.

Lemma transient_codes_listed (s : string) :
  s ∈ TRANSIENT_NETWORK_CODES
  ↔ s ∈ ["ECONNRESET"; "ETIMEDOUT"; "ECONNREFUSED";
         "ENOTFOUND"; "EAI_AGAIN"; "EPIPE"].
Proof.
  unfold TRANSIENT_NETWORK_CODES.
  rewrite !elem_of_union, !elem_of_singleton, !elem_of_cons, elem_of_nil.
  tauto.
Qed.

(** The classifier on an object, by the value of its [code] property. *)
Lemma isTransientError_object props :
  isTransientError (JsObject props)
  = Some (match lookupProp "code" props with
          | Some (JsString s) =>
              bool_decide (s ∈ TRANSIENT_NETWORK_CODES)
              || isTransientStatus (getErrorStatus (JsObject props))
          | _ => isTransientStatus (getErrorStatus (JsObject props))
          end).
Proof.
  unfold isTransientError, isTransientErrorC, isObjectWithCode.
  cbn [typeof isNull negb hasProperty getProperty getErrorStatusC andThen].
  rewrite bool_decide_eq_true_2 by done.
  cbn [andThen].
  destruct (lookupProp "code" props) as [code|] eqn:Hcode.
  - rewrite bool_decide_eq_true_2 by (by eexists).
    cbn [andThen default id]. destruct code; cbn [isTransientCode]; try done.
    by destruct (bool_decide _).
  - rewrite bool_decide_eq_false_2 by (by intros [? ?]). done.
Qed.

Lemma isTransientError_object_true props :
  isTransientError (JsObject props) = Some true
  ↔ (∃ s, lookupProp "code" props = Some (JsString s)
          ∧ s ∈ TRANSIENT_NETWORK_CODES)
    ∨ isTransientStatus (getErrorStatus (JsObject props)) = true.
Proof.
  rewrite isTransientError_object.
  destruct (lookupProp "code" props) as [code|] eqn:Hcode.
  2: { split; [intros [= H]; by right
              |intros [(s' & [=] & _)|H]; by f_equal]. }
  destruct code as [| |b|n|s|ps|has get];
    try (split; [intros [= H]; by right
                |intros [(s' & [=] & _)|H]; by f_equal]).
  split.
  - intros [= H]. apply orb_true_iff in H as [H|H]; [left|by right].
    exists s. split; [done|]. by apply bool_decide_eq_true in H.
  - intros [(s' & [= <-] & Hs)|H]; f_equal; apply orb_true_iff;
      [left; by apply bool_decide_eq_true|by right].
Qed.

Lemma isTransientStatus_spec status :
  isTransientStatus status = true
  ↔ ∃ n, status = Some n ∧ (n = 429 ∨ 500 ≤ n).
Proof.
  destruct status as [n|]; simpl.
  - rewrite orb_true_iff, !bool_decide_eq_true. split.
    + intros H. by exists n.
    + by intros (m & [= <-] & H).
  - split; [done|]. by intros (n & [=] & _).
Qed.

(** The classifier in terms of what its reads yield. *)
Lemma isTransientError_reads error guard code status :
  isObjectWithCode error = Normal guard →
  (guard = true → getProperty "code" error = Normal code) →
  getErrorStatusC error = Normal status →
  isTransientError error
  = Some ((guard && isTransientCode code) || isTransientStatus status).
Proof.
  intros Hguard Hcode Hstatus. unfold isTransientError, isTransientErrorC.
  rewrite Hguard. cbn [andThen]. destruct guard; cbn [andb].
  - rewrite (Hcode eq_refl). cbn [andThen].
    destruct (isTransientCode code); cbn [orb]; [done|].
    rewrite Hstatus. done.
  - cbn [andThen orb]. rewrite Hstatus. done.
Qed.

(** What the reads of a value yield when none of them throws. *)
Lemma readsSafely_reads error :
  readsSafely error →
  ∃ guard code status,
    isObjectWithCode error = Normal guard
    ∧ (guard = true → getProperty "code" error = Normal code)
    ∧ getErrorStatusC error = Normal status
    ∧ (guard = true
       ↔ typeof error = "object" ∧ isNull error = false
         ∧ hasProperty "code" error = Normal true).
Proof.
  destruct error as [| |b|n|s|props|has get]; intros Hsafe.
  1-5: exists false, JsUndefined, None; repeat split; try done;
       by intros (? & ? & ?).
  - exists (bool_decide (is_Some (lookupProp "code" props))),
      (default JsUndefined (lookupProp "code" props)),
      (getErrorStatus (JsObject props)).
    split; [done|]. split; [done|]. split; [done|]. split.
    + intros H. repeat split; try done. cbn. by rewrite H.
    + intros (_ & _ & H). cbn in H. by injection H.
  - destruct Hsafe as ((guard & Hhas) & (code & Hget) & (status & Hstatus)).
    exists guard, code,
      (match status with JsNumber n => Some n | _ => None end).
    unfold isObjectWithCode. cbn [typeof isNull negb hasProperty getProperty
                                  getErrorStatusC].
    rewrite bool_decide_eq_true_2 by done. rewrite Hhas, Hget, Hstatus.
    split; [done|]. split; [done|]. split; [done|]. split.
    + by intros ->.
    + intros (_ & _ & H). by injection H.
Qed.

(** C7, as amended. On every input whose [code] and [status] can be read
    without an exception ([null], [undefined], primitives, objects with
    data properties, and objects whose accessors do not throw),
    [isTransientError] returns, and it returns true exactly for an object
    whose [code] is one of the six transport codes or for an error carrying
    an HTTP status of 429 or at least 500; it returns false for [null],
    [undefined], primitives, the empty object, and an error without
    transient code whose status is another 4xx value. *)
Theorem isTransientError_exactly (error : JsValue) :
  readsSafely error →
  let transientCode :=
    ∃ s, typeof error = "object" ∧ isNull error = false
      ∧ hasProperty "code" error = Normal true
      ∧ getProperty "code" error = Normal (JsString s)
      ∧ s ∈ ["ECONNRESET"; "ETIMEDOUT"; "ECONNREFUSED";
             "ENOTFOUND"; "EAI_AGAIN"; "EPIPE"] in
  let transientStatus :=
    ∃ n, getErrorStatusC error = Normal (Some n) ∧ (n = 429 ∨ 500 ≤ n) in
  (∃ b, isTransientError error = Some b)
  ∧ (isTransientError error = Some true ↔ transientCode ∨ transientStatus)
  ∧ (isTransientError error = Some false
     ↔ ¬ (transientCode ∨ transientStatus))
  ∧ isTransientError JsNull = Some false
  ∧ isTransientError JsUndefined = Some false
  ∧ (∀ b, isTransientError (JsBoolean b) = Some false)
  ∧ (∀ n, isTransientError (JsNumber n) = Some false)
  ∧ (∀ s, isTransientError (JsString s) = Some false)
  ∧ isTransientError (JsObject []) = Some false
  ∧ (∀ props n,
       lookupProp "status" props = Some (JsNumber n) →
       400 ≤ n < 500 → n ≠ 429 →
       (∀ s, lookupProp "code" props = Some (JsString s) →
             s ∉ ["ECONNRESET"; "ETIMEDOUT"; "ECONNREFUSED";
                  "ENOTFOUND"; "EAI_AGAIN"; "EPIPE"]) →
       isTransientError (JsObject props) = Some false).
Proof.
  intros Hsafe transientCode transientStatus.
  destruct (readsSafely_reads error Hsafe)
    as (guard & code & status & Hguard & Hcode & Hstatus & Hobject).
  pose proof (isTransientError_reads error guard code status
                Hguard Hcode Hstatus) as Hvalue.
  assert (Htrue : isTransientError error = Some true
                  ↔ transientCode ∨ transientStatus).
  { subst transientCode transientStatus. rewrite Hvalue. split.
    - intros [= H]. apply orb_true_iff in H as [H|H].
      + left. apply andb_true_iff in H as [-> Hc].
        destruct code as [| |b|n|s|ps|has get]; try done.
        destruct (proj1 Hobject eq_refl) as (Hty & Hnull & Hhas).
        exists s. repeat split; try done.
        * by apply Hcode.
        * apply transient_codes_listed. by apply bool_decide_eq_true in Hc.
      + right. apply isTransientStatus_spec in H as (n & -> & Hn).
        by exists n.
    - intros [(s & Hty & Hnull & Hhas & Hget & Hin)|(n & Hn & Hrange)];
        f_equal; apply orb_true_iff.
      + left. assert (guard = true) as -> by (by apply Hobject).
        rewrite (Hcode eq_refl) in Hget. injection Hget as ->.
        apply bool_decide_eq_true. by apply transient_codes_listed.
      + right. rewrite Hstatus in Hn. injection Hn as ->.
        apply isTransientStatus_spec. by exists n. }
  split; [by eexists|]. split; [done|]. split.
  { rewrite <- Htrue, Hvalue.
    destruct (guard && isTransientCode code || isTransientStatus status);
      split; try done. }
  repeat split; try done.
  intros props n Hst Hrange Hne Hno.
  rewrite isTransientError_object. f_equal.
  assert (Hfalse : isTransientStatus (getErrorStatus (JsObject props))
                   = false).
  { simpl. rewrite Hst. simpl.
    rewrite bool_decide_eq_false_2 by done.
    rewrite bool_decide_eq_false_2 by lia. done. }
  destruct (lookupProp "code" props) as [c|]; [|done].
  destruct c as [| |b|m|s|ps|has get]; try done.
  rewrite Hfalse, orb_false_r. apply bool_decide_eq_false.
  rewrite transient_codes_listed. by apply Hno.
Qed.

(** Witness of C7 as amended: an error whose [code] accessor returns
    "ETIMEDOUT" is transient. *)
Lemma isTransientError_exactly_witness :
  isTransientError timeoutCodeGetter = Some true.
Proof.
  assert (Hsafe : readsSafely timeoutCodeGetter).
  { repeat split; eexists; reflexivity. }
  apply (proj1 (proj2 (isTransientError_exactly timeoutCodeGetter Hsafe))).
  left. exists "ETIMEDOUT". repeat split; try reflexivity.
  apply elem_of_cons. right. apply elem_of_cons. by left.
Defined.

(** C7 as stated fails: on [{ get code() { throw ... } }] the [code] read
    of line 265 throws and so does [isTransientError]. *)
Lemma isTransientError_throwing_getter :
  isTransientError throwingCodeGetter = None.
Proof. reflexivity. Qed.



End TransientErrorFacts.

(** ** The status-event fan-out controller *)

Module StatusHandlerFacts.
Import PROps StatusHandler.

Section Facts.

Context (Remote : Type).
Context (evaluateMergeReadiness :
  PRRef → MergeReadyConfig → list string → string → Remote
  → Outcome unit * Remote).
Context (loadRepositoryConfig : string → string → Outcome RepoConfig).
Context (pullsList : ListQuery → Outcome (list ListedPR)).

Local Abbreviation evaluateEach :=
  (StatusHandler.evaluateEach Remote evaluateMergeReadiness).
Local Abbreviation statusHandler :=
  (StatusHandler.statusHandler Remote evaluateMergeReadiness
     loadRepositoryConfig pullsList).
Local Abbreviation evaluationOutcomes :=
  (StatusHandler.evaluationOutcomes Remote evaluateMergeReadiness).
Local Abbreviation remoteAfter :=
  (StatusHandler.remoteAfter Remote evaluateMergeReadiness).

(** The loop over the matching pull requests: the remote it leaves is the
    one the evaluator's calls leave; what it adds to the trace and to the
    collected failures follows what the evaluator returned. *)
Lemma evaluateEach_run payload ready trusted prs :
  ∀ remote seen failures,
    ∃ events collected,
      (evaluateEach payload ready trusted prs remote seen failures).1.1
      = remoteAfter payload ready trusted prs remote
      ∧ (evaluateEach payload ready trusted prs remote seen failures).1.2
        = seen ++ events
      ∧ (evaluateEach payload ready trusted prs remote seen failures).2
        = failures ++ collected
      ∧ omap evaluatedOf events
        = (λ outcome, (refOf (repository payload) outcome.1, sha payload,
                       rejectionOf outcome.2))
          <$> evaluationOutcomes payload ready trusted prs remote
      ∧ omap listingOf events = []
      ∧ omap errorLogOf events
        = (λ pr, (number pr, full_name (repository payload),
                  failureLogLine))
          <$> rejectedPulls
                (evaluationOutcomes payload ready trusted prs remote)
      ∧ length collected
        = length (rejectedPulls
                    (evaluationOutcomes payload ready trusted prs remote)).
Proof.
  induction prs as [|pr prs IH]; intros remote seen failures.
  - exists [], []. simpl. by rewrite !app_nil_r.
  - cbn [StatusHandler.evaluateEach StatusHandler.evaluationOutcomes
         StatusHandler.remoteAfter].
    destruct (evaluateMergeReadiness _ _ _ _ _) as [[[]|e] remote'].
    + destruct (IH remote'
        (seen ++ [Evaluated (refOf (repository payload) pr)
                    (sha payload) None]) failures)
        as (events & collected & Hrem & Htr & Hfail & Hev & Hls & Hlog
            & Hlen).
      exists (Evaluated (refOf (repository payload) pr) (sha payload) None
              :: events), collected.
      cbn [fst snd]. rewrite Hrem, Htr, Hfail, <- app_assoc.
      split; [done|]. split; [done|]. split; [done|].
      split; [|split; [|split]].
      * simpl. f_equal. exact Hev.
      * exact Hls.
      * exact Hlog.
      * exact Hlen.
    + destruct (IH remote'
        (seen ++ [Evaluated (refOf (repository payload) pr)
                    (sha payload) (Some e);
                  LoggedError (number pr) (full_name (repository payload))
                    failureLogLine]) (failures ++ [(number pr, e)]))
        as (events & collected & Hrem & Htr & Hfail & Hev & Hls & Hlog
            & Hlen).
      exists (Evaluated (refOf (repository payload) pr) (sha payload)
                (Some e)
              :: LoggedError (number pr) (full_name (repository payload))
                   failureLogLine
              :: events), ((number pr, e) :: collected).
      cbn [fst snd]. rewrite Hrem, Htr, Hfail, <- !app_assoc.
      split; [done|]. split; [done|]. split; [done|].
      split; [|split; [|split]].
      * simpl. f_equal. exact Hev.
      * exact Hls.
      * simpl. f_equal. exact Hlog.
      * simpl. f_equal. exact Hlen.
Qed.

(** The run of the handler once the configuration enables merge-readiness
    and the listing answers. *)
Lemma statusHandler_run payload remote config ready prs :
  loadRepositoryConfig (ownerLogin (repository payload))
    (name (repository payload)) = Resolved config →
  mergeReady config = Some ready →
  pullsList (openPullsQuery (repository payload)) = Resolved prs →
  let run := statusHandler payload remote in
  let matching := filter (λ pr, headSha pr = sha payload) prs in
  let outcomes :=
    evaluationOutcomes payload ready (trustedReviewers config)
      matching remote in
  omap listingOf run.2 = [openPullsQuery (repository payload)]
  ∧ run.1.2
    = remoteAfter payload ready (trustedReviewers config) matching remote
  ∧ omap evaluatedOf run.2
    = (λ outcome, (refOf (repository payload) outcome.1, sha payload,
                   rejectionOf outcome.2)) <$> outcomes
  ∧ omap errorLogOf run.2
    = (λ pr, (number pr, full_name (repository payload), failureLogLine))
      <$> rejectedPulls outcomes
  ∧ run.1.1 = match rejectedPulls outcomes with
              | [] => Resolved tt
              | _ => Rejected
                       (aggregateMessage (length (rejectedPulls outcomes)))
              end.
Proof.
  intros Hload Hready Hlist. unfold StatusHandler.statusHandler.
  cbn zeta. rewrite Hload, Hready, Hlist.
  destruct (evaluateEach_run payload ready (trustedReviewers config)
              (filter (λ pr, headSha pr = sha payload) prs) remote
              ([LoadedConfig (ownerLogin (repository payload))
                  (name (repository payload))]
               ++ [ListedPulls (openPullsQuery (repository payload))]) [])
    as (events & collected & Hrem & Htr & Hfail & Hev & Hls & Hlog & Hlen).
  destruct (evaluateEach _ _ _ _ _ _ _) as [[remote' seen] failures].
  cbn [fst snd] in Hrem, Htr, Hfail. subst remote' seen failures.
  rewrite app_nil_l, Hlen.
  set (failed := rejectedPulls _) in *.
  destruct (decide _) as [Hsome|Hnone]; cbn [fst snd];
    rewrite !omap_app, Hev, Hls, Hlog;
    (repeat split; [done..|]);
    destruct failed as [|x xs]; simpl in *; try lia; done.
Qed.

Lemma remoteAfter_foldl payload ready trusted prs remote :
  remoteAfter payload ready trusted prs remote
  = foldl (λ remote pr,
             (evaluateMergeReadiness (refOf (repository payload) pr)
                ready trusted (sha payload) remote).2)
      remote prs.
Proof.
  revert remote. induction prs as [|pr prs IH]; intros remote; [done|].
  simpl. apply IH.
Qed.

Lemma evaluationOutcomes_calls payload ready trusted prs remote :
  (λ e : PRRef * string * option Error, (e.1.1, e.1.2))
  <$> ((λ outcome, (refOf (repository payload) outcome.1, sha payload,
                    rejectionOf outcome.2))
       <$> evaluationOutcomes payload ready trusted prs remote)
  = (λ pr, (refOf (repository payload) pr, sha payload)) <$> prs.
Proof.
  revert remote. induction prs as [|pr prs IH]; intros remote; [done|].
  simpl. f_equal. apply IH.
Qed.

Lemma evaluationOutcomes_length payload ready trusted prs remote :
  length (evaluationOutcomes payload ready trusted prs remote) = length prs.
Proof.
  revert remote. induction prs as [|pr prs IH]; intros remote; [done|].
  simpl. f_equal. apply IH.
Qed.

Lemma evaluationOf_evaluatedOf (events : list Event) :
  omap evaluationOf events = (λ e, (e.1.1, e.1.2)) <$> omap evaluatedOf events.
Proof.
  induction events as [|e events IH]; [done|].
  destruct e; simpl; try done. by f_equal.
Qed.

(** C8. For a status event with SHA [s], the controller lists the open
    pull requests (state open, sorted by most recent update, 100 per page)
    and invokes the merge-readiness evaluator exactly once for each listed
    pull request whose head SHA is [s], with that pull request's reference
    and [s] as head SHA, in listing order; the others are not evaluated:
    the remote the handler leaves is the one these calls of the evaluator
    leave, whatever the evaluator is. *)
Theorem statusHandler_evaluates_matching payload remote config ready prs :
  loadRepositoryConfig (ownerLogin (repository payload))
    (name (repository payload)) = Resolved config →
  mergeReady config = Some ready →
  pullsList (openPullsQuery (repository payload)) = Resolved prs →
  let run := statusHandler payload remote in
  let matching := filter (λ pr, headSha pr = sha payload) prs in
  omap listingOf run.2
  = [ {| queryOwner := ownerLogin (repository payload);
         queryRepo := name (repository payload);
         queryState := "open";
         querySort := "updated";
         queryDirection := "desc";
         per_page := 100 |} ]
  ∧ run.1.2
    = foldl (λ remote pr,
               (evaluateMergeReadiness
                  {| owner := ownerLogin (repository payload);
                     repo := name (repository payload);
                     prNumber := number pr |}
                  ready (trustedReviewers config) (sha payload) remote).2)
        remote matching
  ∧ omap evaluationOf run.2
    = (λ pr, ({| owner := ownerLogin (repository payload);
                 repo := name (repository payload);
                 prNumber := number pr |}, sha payload))
      <$> matching.
Proof.
  intros Hload Hready Hlist run matching.
  destruct (statusHandler_run payload remote config ready prs
              Hload Hready Hlist) as (H1 & H2 & H3 & _).
  split; [exact H1|]. split.
  - subst run. rewrite H2. apply remoteAfter_foldl.
  - subst run. rewrite evaluationOf_evaluatedOf, H3.
    apply evaluationOutcomes_calls.
Qed.

(** C9. When evaluations of matching pull requests throw, every matching
    pull request is still evaluated; each failure is logged with its
    pull-request number and the repository's full name; at the end the
    controller rejects with one error whose message counts the failed
    evaluations, and resolves when none failed. The failures are the
    rejections the evaluator returned. *)
Theorem statusHandler_aggregates_failures payload remote config ready prs :
  loadRepositoryConfig (ownerLogin (repository payload))
    (name (repository payload)) = Resolved config →
  mergeReady config = Some ready →
  pullsList (openPullsQuery (repository payload)) = Resolved prs →
  let run := statusHandler payload remote in
  let matching := filter (λ pr, headSha pr = sha payload) prs in
  let outcomes :=
    evaluationOutcomes payload ready (trustedReviewers config)
      matching remote in
  let failed := rejectedPulls outcomes in
  length outcomes = length matching
  ∧ run.1.2
    = remoteAfter payload ready (trustedReviewers config) matching remote
  ∧ omap evaluatedOf run.2
    = (λ outcome, (refOf (repository payload) outcome.1, sha payload,
                   rejectionOf outcome.2)) <$> outcomes
  ∧ omap errorLogOf run.2
    = (λ pr, (number pr, full_name (repository payload),
              "Failed to evaluate merge-readiness after status event"))
      <$> failed
  ∧ run.1.1
    = match failed with
      | [] => Resolved tt
      | _ => Rejected
               (pretty (Z.of_nat (length failed))
                +:+ " PR(s) failed merge-readiness evaluation after status event")
      end.
Proof.
  intros Hload Hready Hlist run matching outcomes failed.
  destruct (statusHandler_run payload remote config ready prs
              Hload Hready Hlist) as (_ & H2 & H3 & H4 & H5).
  split; [apply evaluationOutcomes_length|].
  repeat split; [exact H2|exact H3|exact H4|exact H5].
Qed.

End Facts.

End StatusHandlerFacts.

(** ** The status handler on the data of its test suite *)

Module StatusHandlerExamples.
Import PROps StatusHandler TestData.

(** Witness of C8: open pull requests 11, 12 and 13, of which 11 and 13
    point at the event's commit; the evaluator is called for them, in that
    order. *)
Lemma statusHandler_evaluates_matching_witness :
  let run := handleStatus in
  let matching := filter (λ pr, headSha pr = "abc123") openPulls in
  omap listingOf run.2
  = [ {| queryOwner := "hivemoot"; queryRepo := "hivemoot-bot";
         queryState := "open"; querySort := "updated";
         queryDirection := "desc"; per_page := 100 |} ]
  ∧ run.1.2
    = foldl (λ remote pr,
               (mockedEvaluate
                  {| owner := "hivemoot"; repo := "hivemoot-bot";
                     prNumber := number pr |}
                  {| requiredApprovals := 1 |} ["hivemoot-builder"]
                  "abc123" remote).2)
        [] matching
  ∧ omap evaluationOf run.2
    = (λ pr, ({| owner := "hivemoot"; repo := "hivemoot-bot";
                 prNumber := number pr |}, "abc123"))
      <$> matching.
Proof.
  exact (StatusHandlerFacts.statusHandler_evaluates_matching
           (list (PRRef * string)) mockedEvaluate loadedConfig
           (λ _, Resolved openPulls)
           statusPayload [] _ _ openPulls eq_refl eq_refl eq_refl).
Defined.

(** Witness of C9: the evaluation of pull request 13 throws; 11 and 13 are
    both evaluated, the failure is logged and the handler rejects with the
    count. *)
Lemma statusHandler_aggregates_failures_witness :
  let run := handleStatus in
  let matching :=
    filter (λ pr, headSha pr = sha statusPayload) openPulls in
  let outcomes :=
    evaluationOutcomes (list (PRRef * string)) mockedEvaluate statusPayload
      {| requiredApprovals := 1 |} ["hivemoot-builder"] matching [] in
  let failed := rejectedPulls outcomes in
  length outcomes = length matching
  ∧ run.1.2
    = remoteAfter (list (PRRef * string)) mockedEvaluate statusPayload
        {| requiredApprovals := 1 |} ["hivemoot-builder"] matching []
  ∧ omap evaluatedOf run.2
    = (λ outcome, (refOf (repository statusPayload) outcome.1,
                   sha statusPayload, rejectionOf outcome.2)) <$> outcomes
  ∧ omap errorLogOf run.2
    = (λ pr, (number pr, full_name (repository statusPayload),
              "Failed to evaluate merge-readiness after status event"))
      <$> failed
  ∧ run.1.1
    = match failed with
      | [] => Resolved tt
      | _ => Rejected
               (pretty (Z.of_nat (length failed))
                +:+ " PR(s) failed merge-readiness evaluation after status event")
      end.
Proof.
  exact (StatusHandlerFacts.statusHandler_aggregates_failures
           (list (PRRef * string)) mockedEvaluate loadedConfig
           (λ _, Resolved openPulls)
           statusPayload [] _ _ openPulls eq_refl eq_refl eq_refl).
Defined.

(** The run of the test "aggregates per-PR merge-readiness failures": the
    calls the mock recorded, the handler's result and its error log. *)
Example handleStatus_run :
  handleStatus.1.2
  = [ (mkPRRef "hivemoot" "hivemoot-bot" 11, "abc123");
      (mkPRRef "hivemoot" "hivemoot-bot" 13, "abc123") ]
  ∧ handleStatus.1.1
    = Rejected "1 PR(s) failed merge-readiness evaluation after status event"
  ∧ omap evaluatedOf handleStatus.2
    = [ (mkPRRef "hivemoot" "hivemoot-bot" 11, "abc123", None);
        (mkPRRef "hivemoot" "hivemoot-bot" 13, "abc123",
         Some "review API unavailable") ]
  ∧ omap errorLogOf handleStatus.2
    = [ (13, "hivemoot/hivemoot-bot",
         "Failed to evaluate merge-readiness after status event") ].
Proof. vm_compute. done. Qed.

End StatusHandlerExamples.

(** ** Further properties on the data of the test suite *)

Module ClassifierExamples.
Import Automerge TestData.

Example classify_test_suite :
  classifyFiles Glob.glob [] makeConfig
  = {| eligible := false; reason := "no files changed" |}
  ∧ classifyFiles Glob.glob (replicate 6 (makeFile "doc.md" 1 0)) makeConfig
    = {| eligible := false; reason := "too many files: 6 > 5" |}
  ∧ classifyFiles Glob.glob
      [makeFile "a.md" 20 10; makeFile "b.md" 30 25] makeConfig
    = {| eligible := false; reason := "too many changed lines: 85 > 80" |}
  ∧ classifyFiles Glob.glob
      [makeFile "README.md" 5 0; makeFile "package.json" 1 0] makeConfig
    = {| eligible := false; reason := "file not allowed: package.json" |}
  ∧ classifyFiles Glob.glob
      [makeFile "README.md" 10 5; makeFile "docs/guide.md" 15 10;
       makeFile "CHANGELOG.txt" 5 0] makeConfig
    = {| eligible := true; reason := "all file checks passed" |}.
Proof. vm_compute. done. Qed.

Lemma isFileAllowed_Permutation_witness :
  isFileAllowed Glob.glob "README.md"
    ["**/*.md"; "docs/**"] [".github/**"; "package.json"]
  = isFileAllowed Glob.glob "README.md"
      ["docs/**"; "**/*.md"] ["package.json"; ".github/**"].
Proof.
  apply (ClassifierFacts.isFileAllowed_Permutation Glob.glob "README.md");
    apply perm_swap.
Defined.

Lemma classifyFiles_Permutation_witness :
  eligible (classifyFiles Glob.glob
              [makeFile "README.md" 5 0; makeFile "src/index.ts" 5 0]
              makeConfig)
  = eligible (classifyFiles Glob.glob
                [makeFile "src/index.ts" 5 0; makeFile "README.md" 5 0]
                makeConfig).
Proof.
  apply (ClassifierFacts.classifyFiles_Permutation Glob.glob).
  apply perm_swap.
Defined.

Lemma classifyFiles_eligible_paths_witness :
  (∀ pattern, pattern ∈ denyPaths makeConfig →
     Glob.glob "docs/old-guide.md" pattern = false)
  ∧ ∃ pattern, pattern ∈ allowedPaths makeConfig
               ∧ Glob.glob "docs/old-guide.md" pattern = true.
Proof.
  apply (ClassifierFacts.classifyFiles_eligible_paths Glob.glob
           [makeFile "README.md" 10 5; renamedFile] makeConfig renamedFile).
  - vm_compute. reflexivity.
  - apply elem_of_cons. right. apply elem_of_cons. by left.
  - right. vm_compute. reflexivity.
Defined.

Lemma classifyFiles_degenerate_config_witness :
  eligible (classifyFiles Glob.glob [makeFile "README.md" 5 0]
              (makeConfigWith 0 2)) = false.
Proof.
  apply (ClassifierFacts.classifyFiles_degenerate_config Glob.glob).
  left. simpl. lia.
Defined.

Lemma classifyFiles_more_files_stay_ineligible_witness :
  eligible (classifyFiles Glob.glob
              ([makeFile "src/index.ts" 5 0] ++ [makeFile "README.md" 5 0])
              makeConfig) = false.
Proof.
  apply (ClassifierFacts.classifyFiles_more_files_stay_ineligible Glob.glob).
  - discriminate.
  - intros file Hin. apply list_elem_of_singleton in Hin as ->. simpl. lia.
  - vm_compute. reflexivity.
Defined.

End ClassifierExamples.

Module EvaluatorMoreExamples.
Import Automerge PROps Evaluator TestData.

Lemma evaluateAutomerge_label_requires_all_witness :
  ∃ files approvers,
    filesOf passingStore baseRef 5 = Resolved files
    ∧ eligible (classifyFiles Glob.glob files makeConfig) = true
    ∧ approversOf passingStore baseRef = Resolved approvers
    ∧ 2 ≤ Z.of_nat (trustedApprovalCount ["alice"; "bob"] approvers)
    ∧ (requireChecks makeConfig = true →
       ∃ sha,
         headShaOf passingStore (makeParams (Some makeConfig) (Some "sha123"))
         = Resolved sha
         ∧ (isCIPassing baseRef sha (initially passingStore)).1
           = Resolved true).
Proof.
  apply (EvaluatorFacts.evaluateAutomerge_label_requires_all
           Glob.glob exactLabelMatch automergeLabel passingStore
           (makeParams (Some makeConfig) (Some "sha123")) makeConfig Labeled
           (evaluate passingStore
              (makeParams (Some makeConfig) (Some "sha123"))).2).
  - reflexivity.
  - vm_compute. reflexivity.
  - by left.
Defined.

Lemma evaluateAutomerge_label_withheld_witness :
  ∃ why,
    (Unlabeled "insufficient approvals: 1/2" = Noop false
     ∨ Unlabeled "insufficient approvals: 1/2" = Unlabeled why)
    ∧ ((∃ files,
          filesOf droppedApprovalStore baseRef 5 = Resolved files
          ∧ eligible (classifyFiles Glob.glob files makeConfig) = false
          ∧ why = reason (classifyFiles Glob.glob files makeConfig))
       ∨ (∃ approvers,
            approversOf droppedApprovalStore baseRef = Resolved approvers
            ∧ Z.of_nat (trustedApprovalCount ["alice"; "bob"] approvers) < 2
            ∧ why = "insufficient approvals: "
                    +:+ pretty (Z.of_nat (trustedApprovalCount
                                            ["alice"; "bob"] approvers))
                    +:+ "/" +:+ pretty 2)
       ∨ (requireChecks makeConfig = true
          ∧ why = "CI not passing"
          ∧ ∃ sha,
              headShaOf droppedApprovalStore (makeParams (Some makeConfig) None)
              = Resolved sha
              ∧ (isCIPassing baseRef sha (initially droppedApprovalStore)).1
                = Resolved false)).
Proof.
  apply (EvaluatorFacts.evaluateAutomerge_label_withheld
           Glob.glob exactLabelMatch automergeLabel droppedApprovalStore
           (makeParams (Some makeConfig) None) makeConfig
           (Unlabeled "insufficient approvals: 1/2")
           (evaluate droppedApprovalStore
              (makeParams (Some makeConfig) None)).2).
  - reflexivity.
  - vm_compute. reflexivity.
  - right. by eexists.
Defined.

Lemma evaluateAutomerge_action_reports_mutation_witness :
  mutations (trace (evaluate passingStore
                      (makeParams (Some makeConfig) (Some "sha123"))).2)
  = [{| call := AddLabels baseRef [automergeLabel]; threw := None |}].
Proof.
  apply (EvaluatorFacts.evaluateAutomerge_action_reports_mutation
           Glob.glob exactLabelMatch automergeLabel passingStore
           (makeParams (Some makeConfig) (Some "sha123")) Labeled).
  vm_compute. reflexivity.
Defined.

Lemma evaluateAutomerge_mutation_failure_witness :
  let run := evaluate addLabelsDownStore
               (makeParams (Some makeConfig) (Some "sha123")) in
  run.1 = Rejected "label API error"
  ∧ store run.2 = addLabelsDownStore
  ∧ logged run.2 = [].
Proof.
  apply (EvaluatorFacts.evaluateAutomerge_mutation_failure
           Glob.glob exactLabelMatch automergeLabel addLabelsDownStore
           (makeParams (Some makeConfig) (Some "sha123"))
           {| call := AddLabels baseRef [automergeLabel];
              threw := Some "label API error" |}).
  - vm_compute. repeat constructor.
  - reflexivity.
  - reflexivity.
Defined.

Lemma evaluateAutomerge_call_order_witness :
  ∃ sha,
    sublist
      (call <$> trace (evaluate passingStore
                         (makeParams (Some makeConfig) None)).2)
      (canonicalCalls automergeLabel baseRef makeConfig sha).
Proof.
  exact (EvaluatorFacts.evaluateAutomerge_call_order
           Glob.glob exactLabelMatch automergeLabel passingStore
           (makeParams (Some makeConfig) None) makeConfig eq_refl).
Defined.

Example call_order_of_passing_run :
  call <$> trace (evaluate passingStore (makeParams (Some makeConfig) None)).2
  = [ GetLabels baseRef; ListFiles baseRef 5; GetApproverLogins baseRef;
      Get baseRef;
      GetCheckRunsForRef "org" "repo" "abc123";
      GetCombinedStatus "org" "repo" "abc123";
      AddLabels baseRef [automergeLabel] ].
Proof. vm_compute. reflexivity. Qed.

Lemma evaluateAutomerge_prefetched_inputs_witness :
  Forall (λ e, isLabelQuery (call e) = false)
    (trace (evaluate passingStore prefetchedParams).2).
Proof.
  apply (proj1 (EvaluatorFacts.evaluateAutomerge_prefetched_inputs
                  Glob.glob exactLabelMatch automergeLabel passingStore
                  prefetchedParams makeConfig eq_refl)).
  by eexists.
Defined.

Lemma evaluateAutomerge_ci_commit_witness :
  Forall (λ e, isCIQuery (call e) = true →
               call e = GetCheckRunsForRef "org" "repo" "abc123"
               ∨ call e = GetCombinedStatus "org" "repo" "abc123")
    (trace (evaluate passingStore (makeParams (Some makeConfig) None)).2).
Proof.
  apply (EvaluatorFacts.evaluateAutomerge_ci_commit
           Glob.glob exactLabelMatch automergeLabel passingStore
           (makeParams (Some makeConfig) None) makeConfig "abc123").
  - reflexivity.
  - vm_compute. reflexivity.
Defined.

Lemma evaluateAutomerge_unreachable_threshold_witness :
  let run := evaluate passingStore
               (makeParams (Some (makeConfigWith 5 3)) (Some "sha123")) in
  Forall (λ e, isAddLabels (call e) = false) (trace run.2)
  ∧ run.1 ≠ Resolved Labeled
  ∧ run.1 ≠ Resolved (Noop true).
Proof.
  apply (EvaluatorFacts.evaluateAutomerge_unreachable_threshold
           Glob.glob exactLabelMatch automergeLabel passingStore
           (makeParams (Some (makeConfigWith 5 3)) (Some "sha123"))
           (makeConfigWith 5 3)).
  - reflexivity.
  - vm_compute. reflexivity.
Defined.

(** Stale labels passed by the caller: the label is already on the pull
    request, the caller passes none, and the label is added again. *)
Lemma evaluateAutomerge_trusts_prefetched_labels_witness :
  (evaluate (setLabels baseRef (λ _, [automergeLabel]) passingStore)
     prefetchedParams).1
  = (evaluate passingStore prefetchedParams).1
  ∧ trace (evaluate (setLabels baseRef (λ _, [automergeLabel]) passingStore)
             prefetchedParams).2
    = trace (evaluate passingStore prefetchedParams).2.
Proof.
  exact (EvaluatorFacts.evaluateAutomerge_trusts_prefetched_labels
           Glob.glob exactLabelMatch automergeLabel passingStore
           prefetchedParams [] (λ _, [automergeLabel]) eq_refl).
Defined.

End EvaluatorMoreExamples.
